(** * tech-health: a shallow embedding of the front end and the report template

    The development follows the sources of the repository:

    - [AuthContext]          the authentication provider ([login], [logout],
                             [validateToken]) with the browser's
                             [localStorage] as a finite map;
    - [RepositoryAnalysis]   the analysis page ([parseGitHubUrl],
                             [fetchRepositories], [startAnalysis] and the
                             form controls), as state passing over the
                             component state with a trace of effects;
    - [Dashboard]            [fetchDashboardData], with [Math.random] as an
                             explicit generator state;
    - [ReportTemplate]       the Jinja template of the HTML report, as a
                             syntax tree with the names it reads.

    JavaScript numbers are IEEE 754 binary64 values: they are modelled by the
    primitive floats of the kernel, so that the arithmetic of the progress
    bar and of the demo scores is the arithmetic of the program. *)

From Stdlib Require Import ZArith Ascii.
From Stdlib Require Import Floats.PrimFloat Floats.FloatOps Floats.SpecFloat.
From stdpp Require Import gmap strings list pretty.

Local Open Scope Z_scope.

(** ** JavaScript values and string primitives *)

Module Js.

(** Truthiness of a string: only the empty string is falsy. *)
Definition truthy (s : string) : bool :=
  match s with
  | EmptyString => false
  | String _ _ => true
  end.

(** [v || d] where [v] is a string or [undefined]. *)
Definition or_else (v : option string) (d : string) : string :=
  match v with
  | Some s => if truthy s then s else d
  | None => d
  end.

(** [v || undefined] on a string. *)
Definition or_undefined (s : string) : option string :=
  if truthy s then Some s else None.

(** [s.startsWith(p)], returning what follows the prefix. *)
Fixpoint strip_prefix (p s : string) : option string :=
  match p with
  | EmptyString => Some s
  | String a p' =>
      match s with
      | EmptyString => None
      | String b s' => if Ascii.eqb a b then strip_prefix p' s' else None
      end
  end.

(** [s.replace(pat, rep)] with a string pattern: the first occurrence
    only, scanning from the left. *)
Fixpoint replace (pat rep s : string) : string :=
  match strip_prefix pat s with
  | Some rest => rep +:+ rest
  | None =>
      match s with
      | EmptyString => EmptyString
      | String c s' => String c (replace pat rep s')
      end
  end.

(** [s.split(sep)] for a separator of one character. *)
Fixpoint split (sep : ascii) (s : string) : list string :=
  match s with
  | EmptyString => [EmptyString]
  | String c s' =>
      if Ascii.eqb c sep then EmptyString :: split sep s'
      else match split sep s' with
           | w :: ws => String c w :: ws
           | [] => [String c EmptyString]
           end
  end.

(** [Math.floor] on a finite number, as an integer.  A binary64 value is
    [(-1)^s * m * 2^e]; shifting by [e] rounds towards minus infinity. *)
Definition Math_floor (x : float) : Z :=
  match Prim2SF x with
  | S754_finite s m e => Z.shiftl (if s then Z.neg m else Z.pos m) e
  | _ => 0
  end.

(** [Math.random]: the generator is a sequence of numbers of [0, 1) and
    the position of the next draw. *)
Record Rng := { draws : nat → float; pos : nat }.

Definition Math_random (g : Rng) : float * Rng :=
  (draws g (pos g), {| draws := draws g; pos := S (pos g) |}).

End Js.

(** ** Backtracking matcher for the regular expression of [parseGitHubUrl]

    Matchers are written in continuation-passing style: a matcher consumes a
    prefix of the input and hands the rest to its continuation; when the
    continuation fails, a greedy quantifier gives back one character and tries
    again, as the regular expression engine does. *)

Module Regex.

Section Matchers.
Context {R : Type}.

(** A literal. *)
Definition lit (l : string) (k : string → option R) (s : string) : option R :=
  match Js.strip_prefix l s with
  | Some rest => k rest
  | None => None
  end.

(** The rest of a greedy group of characters other than [c], [acc] being
    what the group has captured so far: take one more character if possible, and fall back to
    stopping here when the continuation fails further on. *)
Fixpoint star_not (c : ascii) (acc : string)
    (k : string → string → option R) (s : string) : option R :=
  match s with
  | EmptyString => k acc s
  | String a s' =>
      if Ascii.eqb a c then k acc s
      else match star_not c (acc +:+ String a EmptyString) k s' with
           | Some r => Some r
           | None => k acc s
           end
  end.

(** The capturing group of one or more characters other than [c]. *)
Definition plus_not (c : ascii) (k : string → string → option R)
    (s : string) : option R :=
  match s with
  | EmptyString => None
  | String a s' =>
      if Ascii.eqb a c then None else star_not c (String a EmptyString) k s'
  end.

(** [s.match(re)] for a regular expression without the [g] flag: the
    match at the leftmost position where the expression matches. *)
Fixpoint search (re : string → option R) (s : string) : option R :=
  match re s with
  | Some m => Some m
  | None =>
      match s with
      | EmptyString => None
      | String _ s' => search re s'
      end
  end.
End Matchers.

End Regex.

(** ** HTTP outcomes (axios) *)

Module Axios.

(** The error object of a rejected request: [error.response?.data?.detail]
    walks three optional levels. *)
Record ErrorData := { detail : option string }.
Record ErrorResponse := { data : option ErrorData }.
Record Error := { response : option ErrorResponse }.

Definition error_detail (e : Error) : option string :=
  r ← response e; d ← data r; detail d.

(** What [await axios.post(...)] and [await axios.get(...)] give: the
    response data, or a thrown error. *)
Inductive outcome (D : Type) : Type :=
| Resolved (d : D)
| Rejected (e : Error).
Arguments Resolved {D} d.
Arguments Rejected {D} e.

End Axios.

(** ** The authentication provider (context/AuthContext) *)

Module AuthContext.
Import Axios.

Record User := { username : string; avatar : string }.

(** Body of the answer of [/api/github/connect]. *)
Record ConnectData := { status : string; cd_username : string }.

(** The state of the provider, the browser's [localStorage] and the current
    route. *)
Record State := {
  user : option User;
  githubToken : option string;
  loading : bool;
  localStorage : gmap string string;
  location : string
}.

Record LoginResult := { success : bool; message : option string }.

(** [response.data && response.data.status === "connected"] *)
Definition connected (d : option ConnectData) : option ConnectData :=
  match d with
  | Some c => if String.eqb (status c) "connected" then Some c else None
  | None => None
  end.

Definition mkUser (c : ConnectData) : User :=
  {| username := cd_username c;
     avatar := "https://github.com/" +:+ cd_username c +:+ ".png" |}.

(** [useState(localStorage.getItem("github_token") || null)] *)
Definition initial (ls : gmap string string) (route : string) : State :=
  {| user := None;
     githubToken := t ← ls !! "github_token"; Js.or_undefined t;
     loading := true;
     localStorage := ls;
     location := route |}.

Definition setLoading (b : bool) (st : State) : State :=
  {| user := user st; githubToken := githubToken st; loading := b;
     localStorage := localStorage st; location := location st |}.

Definition logout (st : State) : State :=
  {| user := None;
     githubToken := None;
     loading := loading st;
     localStorage := delete "github_token" (localStorage st);
     location := "/login" |}.

Definition login (st : State) (token : string)
    (resp : outcome (option ConnectData)) : State * LoginResult :=
  let st := setLoading true st in
  let '(st, result) :=
    match resp with
    | Resolved d =>
        match connected d with
        | Some c =>
            ({| user := Some (mkUser c);
                githubToken := Some token;
                loading := loading st;
                localStorage := <["github_token" := token]> (localStorage st);
                location := "/" |},
             {| success := true; message := None |})
        | None =>
            (st, {| success := false;
                    message := Some "Failed to connect to GitHub" |})
        end
    | Rejected e =>
        (st, {| success := false;
                message := Some (Js.or_else (error_detail e)
                                            "Invalid GitHub token") |})
    end in
  (setLoading false st, result).

(** The effect that runs when [githubToken] changes. *)
Definition validateToken (st : State)
    (resp : outcome (option ConnectData)) : State :=
  let st :=
    match githubToken st with
    | Some _ =>
        match resp with
        | Resolved d =>
            match connected d with
            | Some c =>
                {| user := Some (mkUser c); githubToken := githubToken st;
                   loading := loading st; localStorage := localStorage st;
                   location := location st |}
            | None => logout st
            end
        | Rejected _ => logout st
        end
    | None => st
    end in
  setLoading false st.

Definition getToken (st : State) : option string := githubToken st.
Definition isAuthenticated (st : State) : bool := bool_decide (is_Some (user st)).

End AuthContext.

(** ** The analysis page (pages/RepositoryAnalysis) *)

Module RepositoryAnalysis.
Import Axios.

(** *** [parseGitHubUrl] *)

Record ParsedUrl := { owner : string; repo : string }.

(** The regular expression [github\.com\/([^/]+)\/([^/]+)]; a match is the
    array of the matched text and the two groups. *)
Definition regex : string → option (list string) :=
  Regex.lit "github.com/"
    (Regex.plus_not "/" (λ g1,
       Regex.lit "/"
         (Regex.plus_not "/" (λ g2 _,
            Some ["github.com/" +:+ g1 +:+ "/" +:+ g2; g1; g2])))).

(** A missing group would make [match[2].replace] throw, which the [catch]
    turns into [null]: the lookups are in the option monad. *)
Definition parseGitHubUrl (url : string) : option ParsedUrl :=
  match Regex.search regex url with
  | Some m =>
      if bool_decide (3 ≤ length m)%nat then
        o ← m !! 1%nat;
        r ← m !! 2%nat;
        Some {| owner := o; repo := Js.replace ".git" EmptyString r |}
      else None
  | None => None
  end.

(** *** Component state *)

Record Repository := { r_owner : string; r_name : string }.

Record State := {
  githubUrl : string;
  accessToken : string;
  companyName : string;
  reportFormat : string;
  includeBenchmarks : bool;
  includeSuggestions : bool;
  isLoading : bool;
  progress : float;
  error : string;
  repositories : list Repository;
  selectedRepo : string
}.

(** The values of [useState] at the first render. *)
Definition initial : State :=
  {| githubUrl := EmptyString; accessToken := EmptyString;
     companyName := EmptyString; reportFormat := "html";
     includeBenchmarks := true; includeSuggestions := true;
     isLoading := false; progress := 0%float; error := EmptyString;
     repositories := []; selectedRepo := EmptyString |}.

Definition setGithubUrl (v : string) (st : State) : State :=
  {| githubUrl := v; accessToken := accessToken st;
     companyName := companyName st; reportFormat := reportFormat st;
     includeBenchmarks := includeBenchmarks st;
     includeSuggestions := includeSuggestions st;
     isLoading := isLoading st; progress := progress st; error := error st;
     repositories := repositories st; selectedRepo := selectedRepo st |}.

Definition setAccessToken (v : string) (st : State) : State :=
  {| githubUrl := githubUrl st; accessToken := v;
     companyName := companyName st; reportFormat := reportFormat st;
     includeBenchmarks := includeBenchmarks st;
     includeSuggestions := includeSuggestions st;
     isLoading := isLoading st; progress := progress st; error := error st;
     repositories := repositories st; selectedRepo := selectedRepo st |}.

Definition setCompanyName (v : string) (st : State) : State :=
  {| githubUrl := githubUrl st; accessToken := accessToken st;
     companyName := v; reportFormat := reportFormat st;
     includeBenchmarks := includeBenchmarks st;
     includeSuggestions := includeSuggestions st;
     isLoading := isLoading st; progress := progress st; error := error st;
     repositories := repositories st; selectedRepo := selectedRepo st |}.

Definition setReportFormat (v : string) (st : State) : State :=
  {| githubUrl := githubUrl st; accessToken := accessToken st;
     companyName := companyName st; reportFormat := v;
     includeBenchmarks := includeBenchmarks st;
     includeSuggestions := includeSuggestions st;
     isLoading := isLoading st; progress := progress st; error := error st;
     repositories := repositories st; selectedRepo := selectedRepo st |}.

Definition setIncludeBenchmarks (v : bool) (st : State) : State :=
  {| githubUrl := githubUrl st; accessToken := accessToken st;
     companyName := companyName st; reportFormat := reportFormat st;
     includeBenchmarks := v;
     includeSuggestions := includeSuggestions st;
     isLoading := isLoading st; progress := progress st; error := error st;
     repositories := repositories st; selectedRepo := selectedRepo st |}.

Definition setIncludeSuggestions (v : bool) (st : State) : State :=
  {| githubUrl := githubUrl st; accessToken := accessToken st;
     companyName := companyName st; reportFormat := reportFormat st;
     includeBenchmarks := includeBenchmarks st;
     includeSuggestions := v;
     isLoading := isLoading st; progress := progress st; error := error st;
     repositories := repositories st; selectedRepo := selectedRepo st |}.

Definition setIsLoading (v : bool) (st : State) : State :=
  {| githubUrl := githubUrl st; accessToken := accessToken st;
     companyName := companyName st; reportFormat := reportFormat st;
     includeBenchmarks := includeBenchmarks st;
     includeSuggestions := includeSuggestions st;
     isLoading := v; progress := progress st; error := error st;
     repositories := repositories st; selectedRepo := selectedRepo st |}.

Definition setProgress (v : float) (st : State) : State :=
  {| githubUrl := githubUrl st; accessToken := accessToken st;
     companyName := companyName st; reportFormat := reportFormat st;
     includeBenchmarks := includeBenchmarks st;
     includeSuggestions := includeSuggestions st;
     isLoading := isLoading st; progress := v; error := error st;
     repositories := repositories st; selectedRepo := selectedRepo st |}.

Definition setError (v : string) (st : State) : State :=
  {| githubUrl := githubUrl st; accessToken := accessToken st;
     companyName := companyName st; reportFormat := reportFormat st;
     includeBenchmarks := includeBenchmarks st;
     includeSuggestions := includeSuggestions st;
     isLoading := isLoading st; progress := progress st; error := v;
     repositories := repositories st; selectedRepo := selectedRepo st |}.

Definition setRepositories (v : list Repository) (st : State) : State :=
  {| githubUrl := githubUrl st; accessToken := accessToken st;
     companyName := companyName st; reportFormat := reportFormat st;
     includeBenchmarks := includeBenchmarks st;
     includeSuggestions := includeSuggestions st;
     isLoading := isLoading st; progress := progress st; error := error st;
     repositories := v; selectedRepo := selectedRepo st |}.

Definition setSelectedRepo (v : string) (st : State) : State :=
  {| githubUrl := githubUrl st; accessToken := accessToken st;
     companyName := companyName st; reportFormat := reportFormat st;
     includeBenchmarks := includeBenchmarks st;
     includeSuggestions := includeSuggestions st;
     isLoading := isLoading st; progress := progress st; error := error st;
     repositories := repositories st; selectedRepo := v |}.

(** *** Effects *)

(** Body of the request to [/api/report/generate]; [undefined] members are
    absent. *)
Record GenerateRequest := {
  req_owner : option string;
  req_repo : option string;
  access_token : string;
  company_name : option string;
  include_benchmarks : bool;
  include_suggestions : bool;
  format : string
}.

Record Toast := { title : string; description : string; t_status : string }.

Inductive event :=
| EvGet (url : string) (token : string)
| EvPost (url : string) (body : GenerateRequest)
| EvSetInterval (ms : Z)
| EvClearInterval
| EvToast (t : Toast)
| EvNavigateAfter (ms : Z) (path : string).

Definition repositories_url : string := "http://localhost:8000/api/github/repositories".
Definition generate_url : string := "http://localhost:8000/api/report/generate".

(** *** [fetchRepositories] *)

Definition fetchRepositories (st : State)
    (resp : outcome (list Repository)) : State * list event :=
  if negb (Js.truthy (accessToken st)) then
    (setError "GitHub access token is required" st, [])
  else
    let st := setIsLoading true st in
    let st := setError EmptyString st in
    let '(st, evs) :=
      match resp with
      | Resolved d =>
          (setRepositories d st,
           [EvToast {| title := "Repositories fetched";
                       description :=
                         "Found " +:+ pretty (length d) +:+ " repositories";
                       t_status := "success" |}])
      | Rejected e =>
          (setError (Js.or_else (error_detail e) "Error fetching repositories") st,
           [EvToast {| title := "Error";
                       description :=
                         Js.or_else (error_detail e) "Failed to fetch repositories";
                       t_status := "error" |}])
      end in
    (setIsLoading false st, EvGet repositories_url (accessToken st) :: evs).

(** *** [startAnalysis] *)

(** The callback of [progressInterval]; 0.1 is the binary64 number nearest
    to one tenth. *)
Definition progress_update (prev : float) : float :=
  let newProgress := (prev + (100 - prev) * 0x1.999999999999ap-4)%float in
  if (95 <=? newProgress)%float then 95%float else newProgress.

Definition progressInterval_tick (st : State) : State :=
  setProgress (progress_update (progress st)) st.

(** From the start of [startAnalysis] to the [await]: either the function
    has returned (left, with the state it leaves), or the interval is
    running and the request is on its way (right, with its body). *)
Definition startAnalysis_validate (st : State) : State + State * GenerateRequest :=
  let st := setError EmptyString st in
  let st := setIsLoading true st in
  let st := setProgress 0%float st in
  let target :=
    if Js.truthy (selectedRepo st) then
      let parts := Js.split "/" (selectedRepo st) in
      Some (parts !! 0%nat, parts !! 1%nat)
    else
      match parseGitHubUrl (githubUrl st) with
      | None => None
      | Some parsed => Some (Some (owner parsed), Some (repo parsed))
      end in
  match target with
  | None =>
      inl (setIsLoading false
             (setError "Invalid GitHub URL format. Please use a URL like https://github.com/owner/repo" st))
  | Some (owner, repo) =>
      if negb (Js.truthy (accessToken st)) then
        inl (setIsLoading false (setError "GitHub access token is required" st))
      else
        inr (st,
             {| req_owner := owner;
                req_repo := repo;
                access_token := accessToken st;
                company_name := Js.or_undefined (companyName st);
                include_benchmarks := includeBenchmarks st;
                include_suggestions := includeSuggestions st;
                format := reportFormat st |})
  end.

(** From the answer of the request to the end: the [try] after the
    [await], the [catch] and the [finally]. *)
Definition startAnalysis_settle (st : State) (resp : outcome unit)
    : State * list event :=
  let '(st, evs) :=
    match resp with
    | Resolved _ =>
        (setProgress 100%float st,
         [EvClearInterval;
          EvToast {| title := "Analysis Complete";
                     description := "Repository analysis and report generation successful";
                     t_status := "success" |};
          EvNavigateAfter 1500 "/reports"])
    | Rejected e =>
        (setError (Js.or_else (error_detail e) "Error during analysis")
           (setProgress 0%float st),
         [EvClearInterval;
          EvToast {| title := "Analysis Failed";
                     description := Js.or_else (error_detail e) "Error during analysis";
                     t_status := "error" |}])
    end in
  (setIsLoading false st, evs).

(** The state while the request is in flight, after [k] runs of the
    interval callback. *)
Definition in_flight (st : State) (k : nat) : State :=
  Nat.iter k progressInterval_tick st.

(** One invocation: the interval callback runs [n] times before the request
    answers with [resp]. *)
Definition startAnalysis (st : State) (n : nat) (resp : outcome unit)
    : State * list event :=
  match startAnalysis_validate st with
  | inl st' => (st', [])
  | inr (st', body) =>
      let '(st'', evs) := startAnalysis_settle (in_flight st' n) resp in
      (st'', EvSetInterval 1000 :: EvPost generate_url body :: evs)
  end.

(** *** The form controls *)

(** The [option] elements of the report format [Select]. *)
Definition reportFormat_options : list string := ["html"; "pdf"; "markdown"].

(** The [option] elements of the repository [Select], after its
    placeholder (whose value is the empty string). *)
Definition repository_options (st : State) : list string :=
  EmptyString :: map (λ r, r_owner r +:+ "/" +:+ r_name r) (repositories st).

Inductive action :=
| ChangeAccessToken (v : string)
| ClickConnect (resp : outcome (list Repository))
| ChangeSelectedRepo (v : string)
| ChangeGithubUrl (v : string)
| ChangeCompanyName (v : string)
| ChangeReportFormat (v : string)
| ChangeIncludeBenchmarks (b : bool)
| ChangeIncludeSuggestions (b : bool)
| ClickStartAnalysis (n : nat) (resp : outcome unit).

(** What the rendered controls let the user do in a state: a [Select]
    yields the value of one of its options, the repository select is there
    when there are repositories, the URL input is disabled while a
    repository is selected, and a button is disabled when its [isLoading] or
    its [isDisabled] holds. *)
Definition offered (st : State) (a : action) : Prop :=
  match a with
  | ChangeReportFormat v => v ∈ reportFormat_options
  | ChangeSelectedRepo v => repositories st ≠ [] ∧ v ∈ repository_options st
  | ChangeGithubUrl _ => selectedRepo st = EmptyString
  | ClickConnect _ => isLoading st && (progress st =? 0)%float = false
  | ClickStartAnalysis _ _ =>
      isLoading st = false
      ∧ (githubUrl st ≠ EmptyString ∨ selectedRepo st ≠ EmptyString)
      ∧ accessToken st ≠ EmptyString
  | _ => True
  end.

Definition handle (st : State) (a : action) : State * list event :=
  match a with
  | ChangeAccessToken v => (setAccessToken v st, [])
  | ClickConnect resp => fetchRepositories st resp
  | ChangeSelectedRepo v => (setGithubUrl EmptyString (setSelectedRepo v st), [])
  | ChangeGithubUrl v => (setSelectedRepo EmptyString (setGithubUrl v st), [])
  | ChangeCompanyName v => (setCompanyName v st, [])
  | ChangeReportFormat v => (setReportFormat v st, [])
  | ChangeIncludeBenchmarks b => (setIncludeBenchmarks b st, [])
  | ChangeIncludeSuggestions b => (setIncludeSuggestions b st, [])
  | ClickStartAnalysis n resp => startAnalysis st n resp
  end.

(** A session: the events of the actions, in order. *)
Fixpoint run (st : State) (acts : list action) : State * list event :=
  match acts with
  | [] => (st, [])
  | a :: acts' =>
      let '(st', evs) := handle st a in
      let '(st'', evs') := run st' acts' in
      (st'', evs ++ evs')
  end.

Fixpoint offered_all (st : State) (acts : list action) : Prop :=
  match acts with
  | [] => True
  | a :: acts' => offered st a ∧ offered_all (handle st a).1 acts'
  end.

End RepositoryAnalysis.

(** ** The dashboard (pages/Dashboard) *)

Module Dashboard.
Import Axios.

Record Stats := {
  totalReports : Z;
  totalRepositories : Z;
  averageScore : Z;
  techDebtHours : Z
}.

Section Data.
(** The elements of the two lists the back end answers with; the
    function only counts and slices them. *)
Context {Report Repository : Type}.

Record State := {
  isLoading : bool;
  reports : list Report;
  repositories : list Repository;
  stats : Stats
}.

Definition initial : State :=
  {| isLoading := false; reports := []; repositories := [];
     stats := {| totalReports := 0; totalRepositories := 0;
                 averageScore := 0; techDebtHours := 0 |} |}.

Definition setIsLoading (b : bool) (st : State) : State :=
  {| isLoading := b; reports := reports st;
     repositories := repositories st; stats := stats st |}.

Definition setReports (v : list Report) (st : State) : State :=
  {| isLoading := isLoading st; reports := v;
     repositories := repositories st; stats := stats st |}.

Definition setRepositories (v : list Repository) (st : State) : State :=
  {| isLoading := isLoading st; reports := reports st;
     repositories := v; stats := stats st |}.

Definition setStats (v : Stats) (st : State) : State :=
  {| isLoading := isLoading st; reports := reports st;
     repositories := repositories st; stats := v |}.

(** [Math.floor(Math.random() * range) + base] *)
Definition random_between (range : float) (base : Z) (g : Js.Rng) : Z * Js.Rng :=
  let '(r, g) := Js.Math_random g in
  (Js.Math_floor (r * range)%float + base, g).

(** A rejected request throws into the [catch], which only logs; what was
    set before stays set. *)
Definition fetchDashboardData (st : State) (user : option AuthContext.User)
    (reportsResponse : outcome (list Report))
    (reposResponse : outcome (list Repository))
    (g : Js.Rng) : State * Js.Rng :=
  let st := setIsLoading true st in
  let '(st, g) :=
    match reportsResponse with
    | Rejected _ => (st, g)
    | Resolved reportsData =>
        let st := setReports (take 5 reportsData) st in
        match user with
        | None => (st, g)
        | Some _ =>
            match reposResponse with
            | Rejected _ => (st, g)
            | Resolved reposData =>
                let st := setRepositories (take 5 reposData) st in
                let totalReports := Z.of_nat (length reportsData) in
                let totalRepositories := Z.of_nat (length reposData) in
                let '(averageScore, g) :=
                  if bool_decide (0 < length reportsData)%nat
                  then random_between 30 60 g else (0, g) in
                let '(techDebtHours, g) :=
                  if bool_decide (0 < length reportsData)%nat
                  then random_between 200 50 g else (0, g) in
                (setStats {| totalReports := totalReports;
                             totalRepositories := totalRepositories;
                             averageScore := averageScore;
                             techDebtHours := techDebtHours |} st, g)
            end
        end
    end in
  (setIsLoading false st, g).
End Data.

Arguments State : clear implicits.

End Dashboard.

(** ** The HTML report template (report_generator/templates/report_template.html) *)

Module ReportTemplate.

(** A dotted name, [a.b] being [[a; b]]. *)
Definition name := list string.

(** The Jinja constructs of the template.  Markup outside the delimiters
    binds nothing and is kept by its visible text only. *)
#[local] Unset Elimination Schemes.
Inductive node :=
| Html (text : string)
| Expr (e : name)
| If (cond : name) (body : list node)
| For (x : string) (xs : name) (body : list node).
#[local] Set Elimination Schemes.

(** The template, in document order. *)
Definition report_template : list node :=
  [ Html "Tech Health Report - "; Expr ["repository_name"];
    Html "Tech Health Report";
    Html "Repository: "; Expr ["repository_name"];
    Html "Generated at: "; Expr ["generated_at"];
    If ["company_name"] [Html "Company: "; Expr ["company_name"]];
    Html "Executive Summary";
    Expr ["overall_score"]; Html "/100";
    Html "Overall Health Score";
    Expr ["code_quality"; "maintainability_index"];
    Html "Maintainability";
    Expr ["code_quality"; "test_coverage"]; Html "%";
    Html "Test Coverage";
    Expr ["tech_debt"; "debt_ratio"]; Html "%";
    Html "Technical Debt";
    Html "Code Quality"; Html "Metric"; Html "Value";
    Html "Cyclomatic Complexity";
    Expr ["code_quality"; "cyclomatic_complexity"];
    Html "Maintainability Index";
    Expr ["code_quality"; "maintainability_index"];
    Html "Test Coverage";
    Expr ["code_quality"; "test_coverage"]; Html "%";
    Html "Lines of Code";
    Expr ["code_quality"; "lines_of_code"];
    Html "Development Activity"; Html "Metric"; Html "Value";
    Html "Daily Commit Average";
    Expr ["commit_frequency"; "daily_average"];
    Html "Weekly Commit Average";
    Expr ["commit_frequency"; "weekly_average"];
    Html "Contributors Count";
    Expr ["commit_frequency"; "contributors_count"];
    Html "Technical Debt"; Html "Metric"; Html "Value";
    Html "Debt Ratio";
    Expr ["tech_debt"; "debt_ratio"]; Html "%";
    Html "Estimated Hours to Address";
    Expr ["tech_debt"; "estimated_hours"];
    If ["recommendations"]
      [ Html "Recommendations";
        For "recommendation" ["recommendations"]
          [Expr ["recommendation"]] ];
    Html "Generated by Tech Health Report" ].

(** A name is read from the report unless its root is a loop variable in
    scope. *)
Definition free (scope : list string) (e : name) : list name :=
  match e with
  | [] => []
  | x :: _ => if bool_decide (x ∈ scope) then [] else [e]
  end.

(** The names a rendering looks up in the report, in document order. *)
Fixpoint reads (scope : list string) (n : node) : list name :=
  match n with
  | Html _ => []
  | Expr e => free scope e
  | If c body => free scope c ++ flat_map (reads scope) body
  | For x xs body => free scope xs ++ flat_map (reads (x :: scope)) body
  end.

Definition template_reads : list name := flat_map (reads []) report_template.

(** The names of the report contract as the specification publishes them. *)
Definition spec_contract_names : list name :=
  [ ["overall_score"];
    ["quality"; "maintainability_index"];
    ["debt"; "debt_ratio_pct"];
    ["commit_frequency"; "daily_average"];
    ["recommendations"] ].

End ReportTemplate.

(** ** Vocabulary of the statements *)

Module Pattern.

(** [c] does not occur in [s]. *)
Fixpoint avoids (c : ascii) (s : string) : Prop :=
  match s with
  | EmptyString => True
  | String a s' => a ≠ c ∧ avoids c s'
  end.

(** [s] is empty or starts with [c]: what may follow a segment. *)
Definition delimited (c : ascii) (s : string) : Prop :=
  match s with
  | EmptyString => True
  | String a _ => a = c
  end.

(** [url] reads [github.com/<o>/<r>] after [pre], where [o] and [r] are
    whole, non-empty segments. *)
Definition occurs_at (url pre o r rest : string) : Prop :=
  url = pre +:+ "github.com/" +:+ o +:+ "/" +:+ r +:+ rest
  ∧ o ≠ EmptyString ∧ r ≠ EmptyString
  ∧ avoids "/" o ∧ avoids "/" r ∧ delimited "/" rest.

(** No occurrence of the pattern starts before [pre] ends. *)
Definition leftmost (url pre : string) : Prop :=
  ∀ pre' o' r' rest',
    occurs_at url pre' o' r' rest' → (String.length pre ≤ String.length pre')%nat.

Definition matches (url : string) : Prop :=
  ∃ pre o r rest, occurs_at url pre o r rest.

(** [s] is [a], then its first occurrence of [pat], then [b]. *)
Definition first_occurrence (pat s a b : string) : Prop :=
  s = a +:+ pat +:+ b
  ∧ ∀ a' b', s = a' +:+ pat +:+ b' → (String.length a ≤ String.length a')%nat.

Definition occurs (pat s : string) : Prop :=
  ∃ a b, s = a +:+ pat +:+ b.

(** The two kinds of continuation of a greedy group of characters other
    than [c]: one that fails unless the rest starts with [c], and one that
    never fails. *)
Definition wants_delimiter {R} (c : ascii)
    (k : string → string → option R) : Prop :=
  ∀ g a r, a ≠ c → k g (String a r) = None.

Definition always_succeeds {R} (k : string → string → option R) : Prop :=
  ∀ g r, is_Some (k g r).

(** [s.includes(pat)], which decides [occurs]. *)
Fixpoint includes (pat s : string) : bool :=
  match Js.strip_prefix pat s with
  | Some _ => true
  | None =>
      match s with
      | EmptyString => false
      | String _ s' => includes pat s'
      end
  end.

End Pattern.

Module Trace.
Import RepositoryAnalysis.

(** The bodies of the report generation requests of a trace, in order. *)
Definition requests (evs : list event) : list GenerateRequest :=
  omap (λ ev, match ev with EvPost _ body => Some body | _ => None end) evs.

(** The toasts shown. *)
Definition toasts (evs : list event) : list Toast :=
  omap (λ ev, match ev with EvToast t => Some t | _ => None end) evs.

(** The routes the page goes to. *)
Definition navigations (evs : list event) : list string :=
  omap (λ ev, match ev with EvNavigateAfter _ path => Some path | _ => None end) evs.

(** The two messages of the input checks of [startAnalysis]. *)
Definition url_error : string :=
  "Invalid GitHub URL format. Please use a URL like https://github.com/owner/repo".
Definition token_error : string := "GitHub access token is required".

(** The state after the three resets that open [startAnalysis]. *)
Definition reset (st : State) : State :=
  setProgress 0%float (setIsLoading true (setError EmptyString st)).

(** The body of the request for the target [o], [r] and the form of [st]. *)
Definition body_of (st : State) (o r : option string) : GenerateRequest :=
  {| req_owner := o;
     req_repo := r;
     access_token := accessToken st;
     company_name := Js.or_undefined (companyName st);
     include_benchmarks := includeBenchmarks st;
     include_suggestions := includeSuggestions st;
     format := reportFormat st |}.

(** [st'] has the form inputs of [st]. *)
Definition same_form (st st' : State) : Prop :=
  githubUrl st' = githubUrl st
  ∧ accessToken st' = accessToken st
  ∧ companyName st' = companyName st
  ∧ reportFormat st' = reportFormat st
  ∧ includeBenchmarks st' = includeBenchmarks st
  ∧ includeSuggestions st' = includeSuggestions st
  ∧ selectedRepo st' = selectedRepo st.


(** The format selections among the actions of a session. *)
Definition format_changes (acts : list action) : list string :=
  omap (λ a, match a with ChangeReportFormat v => Some v | _ => None end) acts.

End Trace.

(** ** More of the front end *)

Module JsString.

(** White space and line terminators among the code units below 256: what
    [String.prototype.trim] strips. *)
Definition is_white_space (c : ascii) : bool :=
  match c with
  | "009" | "010" | "011" | "012" | "013" | " " | "160" => true
  | _ => false
  end%char.

Fixpoint trimStart (s : string) : string :=
  match s with
  | EmptyString => EmptyString
  | String c s' => if is_white_space c then trimStart s' else s
  end.

Fixpoint trimEnd (s : string) : string :=
  match s with
  | EmptyString => EmptyString
  | String c s' =>
      match trimEnd s' with
      | EmptyString => if is_white_space c then EmptyString else String c EmptyString
      | t => String c t
      end
  end.

(** [s.trim()] *)
Definition trim (s : string) : string := trimEnd (trimStart s).

(** Every character of [s] is white space. *)
Fixpoint blank (s : string) : Prop :=
  match s with
  | EmptyString => True
  | String c s' => is_white_space c = true ∧ blank s'
  end.

End JsString.

(** ** The login page (pages/Login) *)

Module LoginPage.
Import Axios.

Record State := { token : string; isLoading : bool; error : string }.

Definition initial : State :=
  {| token := EmptyString; isLoading := false; error := EmptyString |}.

Definition setToken (v : string) (st : State) : State :=
  {| token := v; isLoading := isLoading st; error := error st |}.

Definition setIsLoading (v : bool) (st : State) : State :=
  {| token := token st; isLoading := v; error := error st |}.

Definition setError (v : string) (st : State) : State :=
  {| token := token st; isLoading := isLoading st; error := v |}.

(** [handleLogin], with the provider it calls [login] on.  [login] catches
    what the request throws, so the [catch] here has nothing to catch; a
    message that is [undefined] shows nothing, as the empty string does. *)
Definition handleLogin (st : State) (auth : AuthContext.State)
    (resp : outcome (option AuthContext.ConnectData))
    : State * AuthContext.State :=
  if negb (Js.truthy (JsString.trim (token st))) then
    (setError "GitHub token is required" st, auth)
  else
    let st := setIsLoading true st in
    let st := setError EmptyString st in
    let '(auth, result) := AuthContext.login auth (token st) resp in
    let st :=
      if negb (AuthContext.success result)
      then setError (default EmptyString (AuthContext.message result)) st
      else st in
    (setIsLoading false st, auth).

End LoginPage.

(** ** The settings page (pages/Settings) *)

Module SettingsPage.

(** The state of the page, the disclosure of the confirmation dialog and the
    timers that are running (each by the title of the toast it will show). *)
Record State := {
  githubToken : string;
  defaultReportFormat : string;
  emailNotifications : bool;
  email : string;
  autoAnalysis : bool;
  isUpdating : bool;
  isOpen : bool;
  timers : list string
}.

Definition initial : State :=
  {| githubToken := EmptyString; defaultReportFormat := "html";
     emailNotifications := false; email := EmptyString;
     autoAnalysis := false; isUpdating := false; isOpen := false;
     timers := [] |}.

Definition setIsUpdating (v : bool) (st : State) : State :=
  {| githubToken := githubToken st;
     defaultReportFormat := defaultReportFormat st;
     emailNotifications := emailNotifications st; email := email st;
     autoAnalysis := autoAnalysis st; isUpdating := v; isOpen := isOpen st;
     timers := timers st |}.

Definition setIsOpen (v : bool) (st : State) : State :=
  {| githubToken := githubToken st;
     defaultReportFormat := defaultReportFormat st;
     emailNotifications := emailNotifications st; email := email st;
     autoAnalysis := autoAnalysis st; isUpdating := isUpdating st; isOpen := v;
     timers := timers st |}.

Definition setTimers (v : list string) (st : State) : State :=
  {| githubToken := githubToken st;
     defaultReportFormat := defaultReportFormat st;
     emailNotifications := emailNotifications st; email := email st;
     autoAnalysis := autoAnalysis st; isUpdating := isUpdating st;
     isOpen := isOpen st; timers := v |}.

(** [setTimeout(callback, 1000)]: the callbacks run in the order they were
    set. *)
Definition setTimeout (title : string) (st : State) : State :=
  setTimers (timers st ++ [title]) st.

Definition handleSaveSettings (st : State) : State :=
  setTimeout "Settings saved" (setIsUpdating true st).

Definition handleUpdateToken (st : State) : State :=
  setTimeout "GitHub token updated" (setIsUpdating true st).

(** The callback of the oldest timer: the flag goes down and the toast is
    shown. *)
Definition timeout (st : State) : State * list string :=
  match timers st with
  | [] => (st, [])
  | title :: rest => (setIsUpdating false (setTimers rest st), [title])
  end.

Definition handleLogout (st : State) (auth : AuthContext.State)
    : State * AuthContext.State :=
  (setIsOpen false st, AuthContext.logout auth).

Inductive action :=
| ChangeGithubToken (v : string)
| ChangeDefaultReportFormat (v : string)
| ChangeEmailNotifications (b : bool)
| ChangeEmail (v : string)
| ChangeAutoAnalysis (b : bool)
| ClickUpdate
| ClickSave
| Timeout
| ClickDisconnect
| ClickCancel
| ClickConfirm.

(** One action on the page and the provider; the third component is the
    titles of the toasts shown. *)
Definition handle (st : State) (auth : AuthContext.State) (a : action)
    : State * AuthContext.State * list string :=
  match a with
  | ChangeGithubToken v =>
      ({| githubToken := v;
          defaultReportFormat := defaultReportFormat st;
          emailNotifications := emailNotifications st; email := email st;
          autoAnalysis := autoAnalysis st; isUpdating := isUpdating st;
          isOpen := isOpen st; timers := timers st |}, auth, [])
  | ChangeDefaultReportFormat v =>
      ({| githubToken := githubToken st;
          defaultReportFormat := v;
          emailNotifications := emailNotifications st; email := email st;
          autoAnalysis := autoAnalysis st; isUpdating := isUpdating st;
          isOpen := isOpen st; timers := timers st |}, auth, [])
  | ChangeEmailNotifications b =>
      ({| githubToken := githubToken st;
          defaultReportFormat := defaultReportFormat st;
          emailNotifications := b; email := email st;
          autoAnalysis := autoAnalysis st; isUpdating := isUpdating st;
          isOpen := isOpen st; timers := timers st |}, auth, [])
  | ChangeEmail v =>
      ({| githubToken := githubToken st;
          defaultReportFormat := defaultReportFormat st;
          emailNotifications := emailNotifications st; email := v;
          autoAnalysis := autoAnalysis st; isUpdating := isUpdating st;
          isOpen := isOpen st; timers := timers st |}, auth, [])
  | ChangeAutoAnalysis b =>
      ({| githubToken := githubToken st;
          defaultReportFormat := defaultReportFormat st;
          emailNotifications := emailNotifications st; email := email st;
          autoAnalysis := b; isUpdating := isUpdating st;
          isOpen := isOpen st; timers := timers st |}, auth, [])
  | ClickUpdate => (handleUpdateToken st, auth, [])
  | ClickSave => (handleSaveSettings st, auth, [])
  | Timeout => let '(st', ts) := timeout st in (st', auth, ts)
  | ClickDisconnect => (setIsOpen true st, auth, [])
  | ClickCancel => (setIsOpen false st, auth, [])
  | ClickConfirm => let '(st', auth') := handleLogout st auth in (st', auth', [])
  end.

(** What the page lets the user do: the buttons that spin are disabled, the
    update button needs a token typed, the email input and the buttons of the
    dialog are there when their condition holds. *)
Definition offered (st : State) (a : action) : Prop :=
  match a with
  | ClickUpdate => isUpdating st = false ∧ githubToken st ≠ EmptyString
  | ClickSave => isUpdating st = false
  | ChangeEmail _ => emailNotifications st = true
  | ClickCancel | ClickConfirm => isOpen st = true
  | _ => True
  end.

Fixpoint run (st : State) (auth : AuthContext.State) (acts : list action)
    : State * AuthContext.State * list string :=
  match acts with
  | [] => (st, auth, [])
  | a :: acts' =>
      let '(st', auth', ts) := handle st auth a in
      let '(st'', auth'', ts') := run st' auth' acts' in
      (st'', auth'', ts ++ ts')
  end.

Fixpoint offered_all (st : State) (auth : AuthContext.State)
    (acts : list action) : Prop :=
  match acts with
  | [] => True
  | a :: acts' =>
      offered st a
      ∧ offered_all (handle st auth a).1.1 (handle st auth a).1.2 acts'
  end.

End SettingsPage.

(** ** Navigation (components/Sidebar, components/Header) *)

Module Navigation.

Record LinkItem := { name : string; path : string }.

(** [LinkItems] of the sidebar (the icons left out). *)
Definition LinkItems : list LinkItem :=
  [ {| name := "Dashboard"; path := "/" |};
    {| name := "Analyze Repository"; path := "/analyze" |};
    {| name := "Reports"; path := "/reports" |};
    {| name := "Settings"; path := "/settings" |} ].

(** [isActive={location.pathname === link.path}] *)
Definition isActive (pathname : string) (link : LinkItem) : bool :=
  String.eqb pathname (path link).

(** The items the sidebar highlights at a location. *)
Definition active (pathname : string) : list LinkItem :=
  filter (λ link, isActive pathname link = true) LinkItems.

(** What the header shows for the user: [user.avatar || default] and
    [user.username || 'User']. *)
Definition header_avatar (u : AuthContext.User) : string :=
  Js.or_else (Some (AuthContext.avatar u))
    "https://avatars.githubusercontent.com/u/0?v=4".

Definition header_name (u : AuthContext.User) : string :=
  Js.or_else (Some (AuthContext.username u)) "User".

End Navigation.

(** ** Sessions of the authentication provider *)

Module AuthSession.
Import Axios AuthContext.

(** What happens to the provider: a call of [login], a call of [logout]
    (from the header menu or the settings page), a run of the [validateToken]
    effect. *)
Inductive action :=
| Login (token : string) (resp : outcome (option ConnectData))
| Logout
| Validate (resp : outcome (option ConnectData)).

Definition handle (st : State) (a : action) : State :=
  match a with
  | Login token resp => (login st token resp).1
  | Logout => logout st
  | Validate resp => validateToken st resp
  end.

Definition run (st : State) (acts : list action) : State :=
  fold_left handle acts st.


End AuthSession.

(** * Properties *)

(** ** Strings *)

Lemma string_app_cons a s t : String a s +:+ t = String a (s +:+ t).
Proof. reflexivity. Qed.

Lemma string_app_nil_l s : EmptyString +:+ s = s.
Proof. reflexivity. Qed.

Lemma string_app_nil_r s : s +:+ EmptyString = s.
Proof. induction s as [|a s IH]; [done|]. by rewrite string_app_cons, IH. Qed.

Lemma string_app_assoc s t u : (s +:+ t) +:+ u = s +:+ t +:+ u.
Proof.
  induction s as [|a s IH]; [done|]. by rewrite !string_app_cons, IH.
Qed.

Lemma string_app_length s t :
  String.length (s +:+ t) = (String.length s + String.length t)%nat.
Proof.
  induction s as [|a s IH]; [done|]. rewrite string_app_cons. simpl. by rewrite IH.
Qed.

Lemma string_length_0 s : String.length s = 0%nat → s = EmptyString.
Proof. by destruct s. Qed.

Lemma ascii_eqb_refl a : Ascii.eqb a a = true.
Proof. by apply Ascii.eqb_eq. Qed.

Lemma ascii_eqb_ne a b : a ≠ b → Ascii.eqb a b = false.
Proof. intros H. by apply Ascii.eqb_neq. Qed.

Lemma strip_prefix_app p r : Js.strip_prefix p (p +:+ r) = Some r.
Proof.
  induction p as [|a p IH]; [done|].
  rewrite string_app_cons. simpl. by rewrite ascii_eqb_refl.
Qed.

Lemma strip_prefix_Some p s r : Js.strip_prefix p s = Some r → s = p +:+ r.
Proof.
  revert s. induction p as [|a p IH]; intros s H; simpl in H.
  - by inversion H.
  - destruct s as [|b s]; [done|].
    destruct (Ascii.eqb_spec a b) as [->|]; [|done].
    rewrite string_app_cons. f_equal. by apply IH.
Qed.

(** ** [String.prototype.replace] with a string pattern *)

Lemma replace_unfold pat rep s :
  Js.replace pat rep s =
    match Js.strip_prefix pat s with
    | Some rest => rep +:+ rest
    | None =>
        match s with
        | EmptyString => EmptyString
        | String c s' => String c (Js.replace pat rep s')
        end
    end.
Proof. by destruct s. Qed.

Lemma replace_first_occurrence pat rep s a b :
  Pattern.first_occurrence pat s a b → Js.replace pat rep s = a +:+ rep +:+ b.
Proof.
  revert s. induction a as [|c a IH]; intros s [-> Hmin].
  - by rewrite string_app_nil_l, replace_unfold, strip_prefix_app.
  - rewrite string_app_cons, replace_unfold.
    destruct (Js.strip_prefix pat _) as [rest|] eqn:E.
    { apply strip_prefix_Some in E.
      specialize (Hmin EmptyString rest E). simpl in Hmin. lia. }
    rewrite string_app_cons. f_equal.
    apply IH. split; [done|]. intros a' b' E'.
    specialize (Hmin (String c a') b'). rewrite !string_app_cons in Hmin.
    rewrite E' in Hmin. specialize (Hmin eq_refl). simpl in Hmin. lia.
Qed.

Lemma replace_absent pat rep s :
  ¬ Pattern.occurs pat s → Js.replace pat rep s = s.
Proof.
  induction s as [|c s IH]; intros Hno; rewrite replace_unfold.
  - destruct (Js.strip_prefix pat _) as [rest|] eqn:E; [|done].
    apply strip_prefix_Some in E. destruct Hno. by exists EmptyString, rest.
  - destruct (Js.strip_prefix pat _) as [rest|] eqn:E.
    { apply strip_prefix_Some in E. destruct Hno. by exists EmptyString, rest. }
    f_equal. apply IH.
    intros (a & b & ->). apply Hno. by exists (String c a), b.
Qed.

(** ** The greedy groups of the matcher

    A group takes the longest run of characters it can.  It would give
    characters back only if the continuation failed on the longest run and
    succeeded on a shorter one; neither continuation of [regex] does: the
    first wants the very character the group stops at, the second always
    succeeds. *)

Section Greedy.
Context {R : Type} (c : ascii) (k : string → string → option R).

Lemma span_exists s :
  ∃ run tail, s = run +:+ tail ∧ Pattern.avoids c run ∧ Pattern.delimited c tail.
Proof.
  induction s as [|a s (run & tail & -> & Hrun & Htail)].
  - by exists EmptyString, EmptyString.
  - destruct (decide (a = c)) as [->|Hne].
    + by exists EmptyString, (String c (run +:+ tail)).
    + by exists (String a run), tail.
Qed.

Lemma star_not_longest run acc tail :
  Pattern.wants_delimiter c k ∨ Pattern.always_succeeds k →
  Pattern.avoids c run → Pattern.delimited c tail →
  Regex.star_not c acc k (run +:+ tail) = k (acc +:+ run) tail.
Proof.
  intros Hk. revert acc. induction run as [|a run IH]; intros acc Hrun Htail.
  - rewrite string_app_nil_l, string_app_nil_r.
    destruct tail as [|b tail]; [done|]. simpl in Htail. subst b.
    simpl. by rewrite ascii_eqb_refl.
  - destruct Hrun as [Hne Hrun].
    rewrite string_app_cons. simpl. rewrite (ascii_eqb_ne _ _ Hne).
    rewrite (IH _ Hrun Htail), string_app_assoc, string_app_cons, string_app_nil_l.
    destruct (k (acc +:+ String a run) tail) as [m|] eqn:E; [done|].
    destruct Hk as [Hk|Hk].
    + by apply (Hk acc a (run +:+ tail)).
    + destruct (Hk (acc +:+ String a run) tail) as [m Hm]. congruence.
Qed.

Lemma plus_not_longest o tail :
  Pattern.wants_delimiter c k ∨ Pattern.always_succeeds k →
  o ≠ EmptyString → Pattern.avoids c o → Pattern.delimited c tail →
  Regex.plus_not c k (o +:+ tail) = k o tail.
Proof.
  intros Hk Ho Havoid Htail. destruct o as [|a o]; [done|].
  destruct Havoid as [Hne Havoid].
  rewrite string_app_cons. unfold Regex.plus_not.
  rewrite (ascii_eqb_ne _ _ Hne). by rewrite star_not_longest.
Qed.

Lemma plus_not_inv s m :
  Pattern.wants_delimiter c k ∨ Pattern.always_succeeds k →
  Regex.plus_not c k s = Some m →
  ∃ o tail, s = o +:+ tail ∧ o ≠ EmptyString ∧ Pattern.avoids c o
            ∧ Pattern.delimited c tail ∧ k o tail = Some m.
Proof.
  intros Hk H. destruct s as [|a s]; [done|]. unfold Regex.plus_not in H.
  destruct (Ascii.eqb_spec a c) as [->|Hne]; [done|].
  destruct (span_exists s) as (run & tail & -> & Hrun & Htail).
  rewrite star_not_longest in H by done.
  exists (String a run), tail. by repeat split.
Qed.
End Greedy.

(** ** The regular expression at one position, then searched *)

Lemma lit_wants_delimiter {R} (c : ascii) (k : string → string → option R) :
  Pattern.wants_delimiter c (λ g, Regex.lit (String c EmptyString) (k g)).
Proof.
  intros g a t Hne. unfold Regex.lit. cbn [Js.strip_prefix].
  rewrite ascii_eqb_ne; [done|]. by intros ->.
Qed.

Lemma regex_at s o r rest :
  Pattern.occurs_at s EmptyString o r rest →
  RepositoryAnalysis.regex s = Some ["github.com/" +:+ o +:+ "/" +:+ r; o; r].
Proof.
  intros (-> & Ho & Hr & Hao & Har & Hrest).
  rewrite string_app_nil_l. unfold RepositoryAnalysis.regex.
  unfold Regex.lit at 1. rewrite strip_prefix_app.
  rewrite plus_not_longest; try done.
  - unfold Regex.lit. rewrite strip_prefix_app.
    rewrite plus_not_longest; try done. right. by intros g t.
  - left. apply (lit_wants_delimiter "/").
Qed.

Lemma regex_inv s m :
  RepositoryAnalysis.regex s = Some m →
  ∃ o r rest, Pattern.occurs_at s EmptyString o r rest
              ∧ m = ["github.com/" +:+ o +:+ "/" +:+ r; o; r].
Proof.
  unfold RepositoryAnalysis.regex. unfold Regex.lit at 1.
  destruct (Js.strip_prefix "github.com/" s) as [s1|] eqn:E1; [|done].
  apply strip_prefix_Some in E1 as ->. intros H.
  apply plus_not_inv in H as (o & t1 & -> & Ho & Hao & _ & H).
  2:{ left. apply (lit_wants_delimiter "/"). }
  unfold Regex.lit in H.
  destruct (Js.strip_prefix "/" t1) as [s2|] eqn:E2; [|done].
  apply strip_prefix_Some in E2 as ->.
  apply plus_not_inv in H as (r & rest & -> & Hr & Har & Hrest & H).
  2:{ right. by intros g t. }
  exists o, r, rest. split; [|congruence]. by repeat split.
Qed.

Section Search.
Context {R : Type} (re : string → option R).

Lemma search_unfold s :
  Regex.search re s =
    match re s with
    | Some m => Some m
    | None => match s with
              | EmptyString => None
              | String _ s' => Regex.search re s'
              end
    end.
Proof. by destruct s. Qed.

(** The match found is the one at the first position that has one. *)
Lemma search_at pre s m :
  (∀ p1 p2, pre = p1 +:+ p2 → p2 ≠ EmptyString → re (p2 +:+ s) = None) →
  re s = Some m →
  Regex.search re (pre +:+ s) = Some m.
Proof.
  induction pre as [|a pre IH]; intros Hbefore Hm; rewrite search_unfold.
  - by rewrite string_app_nil_l, Hm.
  - rewrite (Hbefore EmptyString (String a pre)) by done.
    rewrite string_app_cons. apply IH; [|done].
    intros p1 p2 -> Hp2. by apply (Hbefore (String a p1) p2).
Qed.

Lemma search_None s :
  Regex.search re s = None ↔ ∀ pre s', s = pre +:+ s' → re s' = None.
Proof.
  split.
  - intros H pre. revert s H. induction pre as [|a pre IH]; intros s H s' ->.
    + rewrite search_unfold in H. rewrite string_app_nil_l in H.
      by destruct (re s').
    + rewrite search_unfold, string_app_cons in H.
      destruct (re _); [done|]. by eapply IH.
  - induction s as [|a s IH]; intros H; rewrite search_unfold.
    + by rewrite (H EmptyString EmptyString).
    + rewrite (H EmptyString (String a s)) by done. apply IH.
      intros pre s' ->. by apply (H (String a pre) s').
Qed.

Lemma search_Some_inv s m :
  Regex.search re s = Some m → ∃ pre s', s = pre +:+ s' ∧ re s' = Some m.
Proof.
  induction s as [|a s IH]; rewrite search_unfold; intros H.
  - exists EmptyString, EmptyString. by destruct (re EmptyString).
  - destruct (re (String a s)) eqn:E.
    + exists EmptyString, (String a s). split; [done|congruence].
    + destruct (IH H) as (pre & s' & -> & Hs'). by exists (String a pre), s'.
Qed.
End Search.

(** ** [parseGitHubUrl] against the pattern *)

Lemma occurs_at_shift p1 p2 s o r rest :
  Pattern.occurs_at (p2 +:+ s) EmptyString o r rest →
  Pattern.occurs_at (p1 +:+ p2 +:+ s) p1 o r rest.
Proof.
  intros (E & H). split; [|done]. rewrite string_app_nil_l in E. by rewrite E.
Qed.

Lemma parseGitHubUrl_leftmost url pre o r rest :
  Pattern.occurs_at url pre o r rest →
  Pattern.leftmost url pre →
  RepositoryAnalysis.parseGitHubUrl url
  = Some {| RepositoryAnalysis.owner := o;
            RepositoryAnalysis.repo := Js.replace ".git" EmptyString r |}.
Proof.
  intros Hocc Hleft. unfold RepositoryAnalysis.parseGitHubUrl.
  pose proof Hocc as (-> & Hrest).
  rewrite (search_at _ pre _ ["github.com/" +:+ o +:+ "/" +:+ r; o; r]); [done| |].
  - intros p1 p2 -> Hp2.
    destruct (RepositoryAnalysis.regex _) as [m|] eqn:E; [|done].
    apply regex_inv in E as (o' & r' & rest' & Hocc' & _).
    apply (occurs_at_shift p1) in Hocc'. rewrite <- string_app_assoc in Hocc'.
    apply Hleft in Hocc'. rewrite string_app_length in Hocc'.
    destruct p2; [done|]. simpl in Hocc'. lia.
  - by apply (regex_at _ o r rest); split.
Qed.

Lemma parseGitHubUrl_None url :
  RepositoryAnalysis.parseGitHubUrl url = None ↔ ¬ Pattern.matches url.
Proof.
  unfold RepositoryAnalysis.parseGitHubUrl. split.
  - intros H (pre & o & r & rest & Hocc).
    destruct (Regex.search _ url) as [m|] eqn:E.
    + apply search_Some_inv in E as (pre' & s' & -> & E).
      by apply regex_inv in E as (o' & r' & rest' & _ & ->).
    + pose proof Hocc as (-> & _).
      rewrite search_None in E. specialize (E pre _ eq_refl).
      rewrite (regex_at _ o r rest) in E; [done|].
      destruct Hocc as (_ & Hocc). by split.
  - intros Hno.
    assert (Regex.search RepositoryAnalysis.regex url = None) as ->; [|done].
    apply search_None. intros pre s' ->.
    destruct (RepositoryAnalysis.regex s') as [m|] eqn:E; [|done].
    apply regex_inv in E as (o & r & rest & Hocc & _).
    destruct Hno. exists pre, o, r, rest.
    apply (occurs_at_shift pre EmptyString). by rewrite string_app_nil_l.
Qed.

(** ** Occurrences, decided *)

Lemma includes_unfold pat s :
  Pattern.includes pat s =
    match Js.strip_prefix pat s with
    | Some _ => true
    | None => match s with
              | EmptyString => false
              | String _ s' => Pattern.includes pat s'
              end
    end.
Proof. by destruct s. Qed.

Lemma includes_false pat s :
  Pattern.includes pat s = false → ¬ Pattern.occurs pat s.
Proof.
  intros H (a & b & ->). revert H. induction a as [|c a IH]; rewrite includes_unfold.
  - by rewrite string_app_nil_l, strip_prefix_app.
  - rewrite string_app_cons. by destruct (Js.strip_prefix pat _).
Qed.

Lemma string_app_eq_split s1 t1 s2 t2 :
  s1 +:+ t1 = s2 +:+ t2 → (String.length s2 < String.length s1)%nat →
  ∃ d, d ≠ EmptyString ∧ s1 = s2 +:+ d ∧ t2 = d +:+ t1.
Proof.
  revert s1. induction s2 as [|c s2 IH]; intros s1 E Hlt.
  - rewrite string_app_nil_l in E. exists s1. split; [|done].
    intros ->. simpl in Hlt. lia.
  - destruct s1 as [|c' s1]; [simpl in Hlt; lia|].
    rewrite !string_app_cons in E. injection E as -> E.
    destruct (IH s1 E) as (d & Hd & -> & ->); [simpl in Hlt; lia|].
    by exists d.
Qed.

(** [github.com/] does not overlap itself: when the text before an occurrence
    of the pattern does not contain it, no occurrence starts earlier. *)
Lemma leftmost_clean_prefix url pre o r rest :
  Pattern.occurs_at url pre o r rest →
  ¬ Pattern.occurs "github.com/" pre →
  Pattern.leftmost url pre.
Proof.
  intros (-> & _) Hclean pre' o' r' rest' (E & _).
  destruct (decide (String.length pre ≤ String.length pre')%nat) as [|Hlt]; [done|].
  exfalso. apply string_app_eq_split in E as (d & Hd & -> & E); [|lia].
  apply Hclean. clear Hclean.
  do 11 (destruct d as [|? d]; [try done; rewrite string_app_nil_l in E;
            by injection E|];
         rewrite string_app_cons in E; injection E as <- E).
  by exists pre', d.
Qed.

(** ** Claims about [parseGitHubUrl] *)

(** C10. On a URL whose leftmost occurrence of the pattern reads
    [github.com/<o>/<r>], with [o] and [r] whole non-empty segments,
    [parseGitHubUrl] returns the owner [o] unchanged and the repository [r]
    with its first occurrence of [.git] removed, and only that one: [r] is
    returned as it is when [.git] does not occur in it; so [name] and
    [name.git] both give [name], and [my.github.io] gives [myhub.io].  On a
    string in which the pattern does not occur it returns [null]. *)
Theorem parseGitHubUrl_segments :
  (∀ url pre o r rest,
     Pattern.occurs_at url pre o r rest → Pattern.leftmost url pre →
     RepositoryAnalysis.parseGitHubUrl url
     = Some {| RepositoryAnalysis.owner := o;
               RepositoryAnalysis.repo := Js.replace ".git" EmptyString r |})
  ∧ (∀ r,
       (∀ a b, Pattern.first_occurrence ".git" r a b →
               Js.replace ".git" EmptyString r = a +:+ b)
       ∧ (¬ Pattern.occurs ".git" r → Js.replace ".git" EmptyString r = r))
  ∧ (Js.replace ".git" EmptyString "name" = "name"
     ∧ Js.replace ".git" EmptyString "name.git" = "name"
     ∧ Js.replace ".git" EmptyString "my.github.io" = "myhub.io")
  ∧ (∀ url, ¬ Pattern.matches url → RepositoryAnalysis.parseGitHubUrl url = None).
Proof.
  split; [|split; [|split]].
  - intros url pre o r rest. apply parseGitHubUrl_leftmost.
  - intros r. split.
    + intros a b H. by rewrite (replace_first_occurrence _ _ _ a b).
    + apply replace_absent.
  - done.
  - intros url. apply parseGitHubUrl_None.
Qed.

Lemma parseGitHubUrl_segments_witness :
  RepositoryAnalysis.parseGitHubUrl "https://github.com/octocat/my.github.io/issues"
  = Some {| RepositoryAnalysis.owner := "octocat";
            RepositoryAnalysis.repo := "myhub.io" |}
  ∧ RepositoryAnalysis.parseGitHubUrl "https://gitlab.com/octocat/hello" = None.
Proof.
  destruct parseGitHubUrl_segments as (Hsome & _ & _ & Hnone).
  split.
  - assert (Pattern.occurs_at "https://github.com/octocat/my.github.io/issues"
              "https://" "octocat" "my.github.io" "/issues") as Hocc.
    { repeat split; try done; by intros [=]. }
    apply (Hsome _ _ _ _ _ Hocc).
    apply (leftmost_clean_prefix _ _ _ _ _ Hocc).
    by apply includes_false.
  - apply Hnone. by apply parseGitHubUrl_None.
Defined.

(** ** Claims about the authentication provider *)

Section Auth.
Import Axios AuthContext.

Lemma connected_Some d c :
  connected d = Some c ↔ d = Some c ∧ status c = "connected".
Proof.
  unfold connected. destruct d as [c'|]; [|by split; [|intros []]].
  destruct (String.eqb_spec (status c') "connected") as [Hc|Hc]; split.
  - by intros [= ->].
  - by intros [[= ->] _].
  - done.
  - intros [[= ->] ?]. by destruct Hc.
Qed.

Lemma connected_None d :
  connected d = None ↔ ∀ c, d = Some c → status c ≠ "connected".
Proof.
  unfold connected. destruct d as [c'|]; [|done].
  destruct (String.eqb_spec (status c') "connected") as [Hc|Hc]; split.
  - done.
  - intros H. by destruct (H c' eq_refl).
  - by intros _ c [= <-].
  - done.
Qed.

Lemma login_connected st token c :
  status c = "connected" →
  login st token (Resolved (Some c))
  = ({| user := Some (mkUser c);
        githubToken := Some token;
        loading := false;
        localStorage := <["github_token" := token]> (localStorage st);
        location := "/" |},
     {| success := true; message := None |}).
Proof.
  intros Hc. unfold login.
  by rewrite (proj2 (connected_Some (Some c) c) (conj eq_refl Hc)).
Qed.

Lemma login_refused st token resp :
  (∀ c, resp = Resolved (Some c) → status c ≠ "connected") →
  ∃ msg, login st token resp
         = (setLoading false st, {| success := false; message := Some msg |}).
Proof.
  intros Hno. unfold login. destruct resp as [d|e].
  - assert (connected d = None) as ->.
    { apply connected_None. intros c ->. by apply Hno. }
    by eexists.
  - by eexists.
Qed.

Lemma login_success_inv st token resp :
  success (login st token resp).2 = true →
  ∃ c, resp = Resolved (Some c) ∧ status c = "connected".
Proof.
  unfold login. destruct resp as [d|e]; [|done].
  destruct (connected d) as [c|] eqn:E; [|done].
  intros _. exists c. apply connected_Some in E as [-> ?]. done.
Qed.
End Auth.

(** C8. [login(token)] stores the token and sets the user exactly when the
    connect endpoint answers with the status [connected], and then returns
    [{success: true}]; on any other answer and on a thrown error it returns
    [{success: false}] with a message, and the stored token, the token in
    memory and the user are what they were. *)
Theorem login_atomic (st : AuthContext.State) (token : string)
    (resp : Axios.outcome (option AuthContext.ConnectData)) :
  let st' := (AuthContext.login st token resp).1 in
  let result := (AuthContext.login st token resp).2 in
  (∀ c, resp = Axios.Resolved (Some c) → AuthContext.status c = "connected" →
     result = {| AuthContext.success := true; AuthContext.message := None |}
     ∧ AuthContext.localStorage st'
       = <["github_token" := token]> (AuthContext.localStorage st)
     ∧ AuthContext.githubToken st' = Some token
     ∧ AuthContext.user st' = Some (AuthContext.mkUser c))
  ∧ ((∀ c, resp = Axios.Resolved (Some c) → AuthContext.status c ≠ "connected") →
     AuthContext.success result = false
     ∧ is_Some (AuthContext.message result)
     ∧ AuthContext.localStorage st' = AuthContext.localStorage st
     ∧ AuthContext.githubToken st' = AuthContext.githubToken st
     ∧ AuthContext.user st' = AuthContext.user st).
Proof.
  split.
  - intros c -> Hc. by rewrite login_connected.
  - intros Hno. destruct (login_refused st token resp Hno) as [msg ->].
    simpl. by repeat split.
Qed.

Lemma login_atomic_witness :
  let st := AuthContext.initial ∅ "/login" in
  let ok := {| AuthContext.status := "connected"; AuthContext.cd_username := "octocat" |} in
  let ko := {| AuthContext.status := "error"; AuthContext.cd_username := "octocat" |} in
  AuthContext.githubToken (AuthContext.login st "ghp_example" (Axios.Resolved (Some ok))).1
  = Some "ghp_example"
  ∧ AuthContext.githubToken (AuthContext.login st "ghp_example" (Axios.Resolved (Some ko))).1
    = None.
Proof.
  intros st ok ko. split.
  - destruct (login_atomic st "ghp_example" (Axios.Resolved (Some ok))) as [H _].
    by destruct (H ok eq_refl eq_refl) as (_ & _ & ? & _).
  - destruct (login_atomic st "ghp_example" (Axios.Resolved (Some ko))) as [_ H].
    destruct H as (_ & _ & _ & ? & _); [|done].
    by intros c [= <-].
Defined.

(** C4, as stated, fails: a successful login leaves the token in
    [localStorage], where there was none. *)
Lemma login_persists_token :
  let st := AuthContext.initial ∅ "/login" in
  let resp := Axios.Resolved (Some {| AuthContext.status := "connected";
                                      AuthContext.cd_username := "octocat" |}) in
  AuthContext.localStorage st !! "github_token" = None
  ∧ AuthContext.success (AuthContext.login st "ghp_example" resp).2 = true
  ∧ AuthContext.localStorage (AuthContext.login st "ghp_example" resp).1
      !! "github_token" = Some "ghp_example".
Proof.
  intros st resp. split; [done|]. unfold resp. rewrite login_connected by done.
  split; [done|]. simpl. apply lookup_insert_eq.
Qed.

(** C4, amended. A successful login writes the supplied token to the
    browser's [localStorage] under the key [github_token], and writes nothing
    else; a login that does not succeed leaves [localStorage] as it was; after
    every logout no token is stored, neither in [localStorage] nor in memory,
    and the other keys are untouched. *)
Theorem token_persistence (st : AuthContext.State) (token : string)
    (resp : Axios.outcome (option AuthContext.ConnectData)) :
  let st' := (AuthContext.login st token resp).1 in
  let result := (AuthContext.login st token resp).2 in
  (AuthContext.success result = true →
     AuthContext.localStorage st'
     = <["github_token" := token]> (AuthContext.localStorage st)
     ∧ AuthContext.localStorage st' !! "github_token" = Some token)
  ∧ (AuthContext.success result = false →
     AuthContext.localStorage st' = AuthContext.localStorage st)
  ∧ AuthContext.localStorage (AuthContext.logout st) !! "github_token" = None
  ∧ AuthContext.githubToken (AuthContext.logout st) = None
  ∧ (∀ k, k ≠ "github_token" →
       AuthContext.localStorage (AuthContext.logout st) !! k
       = AuthContext.localStorage st !! k).
Proof.
  intros st' result. subst st' result. split; [|split; [|split; [|split]]].
  - intros Hs. apply login_success_inv in Hs as (c & -> & Hc).
    rewrite login_connected by done. split; [done|]. apply lookup_insert_eq.
  - intros Hfail. destruct resp as [d|e]; [|done].
    unfold AuthContext.login in *. by destruct (AuthContext.connected d).
  - apply lookup_delete_eq.
  - done.
  - intros k Hk. simpl. by apply lookup_delete_ne.
Qed.

Lemma token_persistence_witness :
  let st := AuthContext.initial ∅ "/login" in
  let resp := Axios.Resolved (Some {| AuthContext.status := "connected";
                                      AuthContext.cd_username := "octocat" |}) in
  AuthContext.localStorage (AuthContext.login st "ghp_example" resp).1
    !! "github_token" = Some "ghp_example"
  ∧ AuthContext.localStorage
      (AuthContext.logout (AuthContext.login st "ghp_example" resp).1)
      !! "github_token" = None.
Proof.
  intros st resp. split.
  - destruct (token_persistence st "ghp_example" resp) as (H & _).
    apply H. unfold resp. by rewrite login_connected.
  - by destruct (token_persistence (AuthContext.login st "ghp_example" resp).1
                   "ghp_example" resp) as (_ & _ & ? & _).
Defined.

(** ** [startAnalysis], phase by phase *)

Section Analysis.
Import Axios RepositoryAnalysis.

Lemma truthy_false s : Js.truthy s = false ↔ s = EmptyString.
Proof. by destruct s. Qed.

Lemma truthy_true s : Js.truthy s = true ↔ s ≠ EmptyString.
Proof. by destruct s. Qed.

Lemma or_else_truthy v d : d ≠ EmptyString → Js.or_else v d ≠ EmptyString.
Proof. intros Hd. destruct v as [[|a s]|]; done. Qed.

Lemma or_else_detail v d s : v = Some s → s ≠ EmptyString → Js.or_else v d = s.
Proof. intros -> Hs. by destruct s. Qed.

Lemma or_else_fallback v d :
  v = None ∨ v = Some EmptyString → Js.or_else v d = d.
Proof. by intros [-> | ->]. Qed.

Lemma validate_invalid st :
  (selectedRepo st = EmptyString ∧ ¬ Pattern.matches (githubUrl st))
  ∨ accessToken st = EmptyString →
  ∃ msg, (msg = Trace.url_error ∨ msg = Trace.token_error)
         ∧ startAnalysis_validate st
           = inl (setIsLoading false (setError msg (Trace.reset st))).
Proof.
  intros H. unfold startAnalysis_validate. fold (Trace.reset st).
  change (selectedRepo (Trace.reset st)) with (selectedRepo st).
  change (githubUrl (Trace.reset st)) with (githubUrl st).
  change (accessToken (Trace.reset st)) with (accessToken st).
  destruct (Js.truthy (selectedRepo st)) eqn:Hsel.
  - destruct H as [[Hs _]|Htok].
    + apply truthy_true in Hsel. by destruct Hsel.
    + rewrite Htok. exists Trace.token_error. by split; [right|].
  - destruct (parseGitHubUrl (githubUrl st)) as [parsed|] eqn:Hp.
    + destruct H as [[_ Hno]|Htok].
      * apply parseGitHubUrl_None in Hno. congruence.
      * rewrite Htok. exists Trace.token_error. by split; [right|].
    + exists Trace.url_error. by split; [left|].
Qed.

Lemma validate_issued st st0 body :
  startAnalysis_validate st = inr (st0, body) →
  st0 = Trace.reset st
  ∧ accessToken st ≠ EmptyString
  ∧ access_token body = accessToken st
  ∧ company_name body = Js.or_undefined (companyName st)
  ∧ include_benchmarks body = includeBenchmarks st
  ∧ include_suggestions body = includeSuggestions st
  ∧ format body = reportFormat st.
Proof.
  unfold startAnalysis_validate. fold (Trace.reset st).
  change (selectedRepo (Trace.reset st)) with (selectedRepo st).
  change (githubUrl (Trace.reset st)) with (githubUrl st).
  change (accessToken (Trace.reset st)) with (accessToken st).
  destruct (if Js.truthy (selectedRepo st) then _ else _) as [[o r]|]; [|done].
  destruct (Js.truthy (accessToken st)) eqn:Htok; [|done].
  intros [= <- <-]. apply truthy_true in Htok. by repeat split.
Qed.

Lemma startAnalysis_returned st n resp st' :
  startAnalysis_validate st = inl st' → startAnalysis st n resp = (st', []).
Proof. intros H. unfold startAnalysis. by rewrite H. Qed.

Lemma startAnalysis_issued st n resp st0 body :
  startAnalysis_validate st = inr (st0, body) →
  startAnalysis st n resp
  = ((startAnalysis_settle (in_flight st0 n) resp).1,
     EvSetInterval 1000 :: EvPost generate_url body
       :: (startAnalysis_settle (in_flight st0 n) resp).2).
Proof.
  intros H. unfold startAnalysis. rewrite H.
  by destruct (startAnalysis_settle (in_flight st0 n) resp).
Qed.

(** The interval callback touches [progress] only. *)
Lemma in_flight_progress st k :
  in_flight st k = setProgress (Nat.iter k progress_update (progress st)) st.
Proof.
  induction k as [|k IH].
  - by destruct st.
  - unfold in_flight in *. simpl. by rewrite IH.
Qed.
End Analysis.

(** ** Claims about [startAnalysis] *)

(** C3. When no repository is selected and the URL entered does not match
    the owner/repo pattern, or when the access token is empty,
    [startAnalysis] issues no request and starts nothing (no timer, no toast,
    no navigation: the trace of effects is empty), sets one of its two error
    messages, and leaves the form as it was, with the loading flag down and
    the progress at zero. *)
Theorem startAnalysis_validates_first (st : RepositoryAnalysis.State) (n : nat)
    (resp : Axios.outcome unit) :
  (RepositoryAnalysis.selectedRepo st = EmptyString
   ∧ ¬ Pattern.matches (RepositoryAnalysis.githubUrl st))
  ∨ RepositoryAnalysis.accessToken st = EmptyString →
  let st' := (RepositoryAnalysis.startAnalysis st n resp).1 in
  let evs := (RepositoryAnalysis.startAnalysis st n resp).2 in
  evs = []
  ∧ Trace.requests evs = []
  ∧ (RepositoryAnalysis.error st' = Trace.url_error
     ∨ RepositoryAnalysis.error st' = Trace.token_error)
  ∧ RepositoryAnalysis.error st' ≠ EmptyString
  ∧ RepositoryAnalysis.isLoading st' = false
  ∧ RepositoryAnalysis.progress st' = 0%float
  ∧ RepositoryAnalysis.githubUrl st' = RepositoryAnalysis.githubUrl st
  ∧ RepositoryAnalysis.accessToken st' = RepositoryAnalysis.accessToken st
  ∧ RepositoryAnalysis.companyName st' = RepositoryAnalysis.companyName st
  ∧ RepositoryAnalysis.reportFormat st' = RepositoryAnalysis.reportFormat st
  ∧ RepositoryAnalysis.includeBenchmarks st' = RepositoryAnalysis.includeBenchmarks st
  ∧ RepositoryAnalysis.includeSuggestions st' = RepositoryAnalysis.includeSuggestions st
  ∧ RepositoryAnalysis.repositories st' = RepositoryAnalysis.repositories st
  ∧ RepositoryAnalysis.selectedRepo st' = RepositoryAnalysis.selectedRepo st.
Proof.
  intros H. destruct (validate_invalid st H) as (msg & Hmsg & Hv).
  rewrite (startAnalysis_returned _ _ _ _ Hv). simpl.
  repeat split; try done. by destruct Hmsg as [-> | ->].
Qed.

Lemma startAnalysis_validates_first_witness :
  let st := RepositoryAnalysis.setAccessToken "ghp_example"
              (RepositoryAnalysis.setGithubUrl "https://github.com/octocat"
                 RepositoryAnalysis.initial) in
  (RepositoryAnalysis.startAnalysis st 3 (Axios.Resolved ())).2 = []
  ∧ RepositoryAnalysis.error (RepositoryAnalysis.startAnalysis st 3 (Axios.Resolved ())).1
    = Trace.url_error.
Proof.
  intros st.
  assert (RepositoryAnalysis.selectedRepo st = EmptyString
          ∧ ¬ Pattern.matches (RepositoryAnalysis.githubUrl st)
          ∨ RepositoryAnalysis.accessToken st = EmptyString) as H.
  { left. split; [done|]. by apply parseGitHubUrl_None. }
  destruct (startAnalysis_validates_first st 3 (Axios.Resolved ()) H)
    as (Hevs & _ & [Herr|Herr] & _); [done|].
  split; [done|]. by vm_compute.
Defined.

(** C5. When the report generation request fails, the detail carried by
    the answer is what the page shows, unchanged, both as the error message
    and in the toast; the fallback message is shown only when the answer
    carries no detail (none at all, or an empty one); the progress is back to
    zero, the loading flag is down, and the page does not go to the reports:
    nothing follows the failure but the end of the timer and the toast. *)
Theorem startAnalysis_failure_surfaced (st st0 : RepositoryAnalysis.State)
    (body : RepositoryAnalysis.GenerateRequest) (n : nat) (e : Axios.Error) :
  RepositoryAnalysis.startAnalysis_validate st = inr (st0, body) →
  let st' := (RepositoryAnalysis.startAnalysis st n (Axios.Rejected e)).1 in
  let evs := (RepositoryAnalysis.startAnalysis st n (Axios.Rejected e)).2 in
  (∀ d, Axios.error_detail e = Some d → d ≠ EmptyString →
     RepositoryAnalysis.error st' = d
     ∧ Trace.toasts evs
       = [{| RepositoryAnalysis.title := "Analysis Failed";
             RepositoryAnalysis.description := d;
             RepositoryAnalysis.t_status := "error" |}])
  ∧ (Axios.error_detail e = None ∨ Axios.error_detail e = Some EmptyString →
     RepositoryAnalysis.error st' = "Error during analysis")
  ∧ RepositoryAnalysis.progress st' = 0%float
  ∧ RepositoryAnalysis.isLoading st' = false
  ∧ Trace.navigations evs = []
  ∧ Trace.requests evs = [body].
Proof.
  intros Hv. rewrite (startAnalysis_issued _ _ _ _ _ Hv). simpl.
  repeat split; try done.
  - by apply or_else_detail.
  - by rewrite (or_else_detail _ _ d).
  - by apply or_else_fallback.
Qed.

Lemma startAnalysis_failure_surfaced_witness :
  let st := RepositoryAnalysis.setAccessToken "ghp_example"
              (RepositoryAnalysis.setGithubUrl "https://github.com/octocat/hello"
                 RepositoryAnalysis.initial) in
  let e := {| Axios.response :=
                Some {| Axios.data :=
                          Some {| Axios.detail := Some "Repository not found" |} |} |} in
  RepositoryAnalysis.error (RepositoryAnalysis.startAnalysis st 4 (Axios.Rejected e)).1
  = "Repository not found"
  ∧ RepositoryAnalysis.progress (RepositoryAnalysis.startAnalysis st 4 (Axios.Rejected e)).1
    = 0%float.
Proof.
  intros st e.
  destruct (RepositoryAnalysis.startAnalysis_validate st) as [|[st0 body]] eqn:Hv;
    [by vm_compute in Hv|].
  destruct (startAnalysis_failure_surfaced st st0 body 4 e Hv)
    as (Hd & _ & Hp & _).
  split; [|done]. by apply Hd.
Defined.

(** C6. An invocation of [startAnalysis] issues at most one report
    generation request; when that request fails, the failure is shown at
    once (the error message is set, the loading flag goes down) and the
    invocation ends with the timer stopped and the toast, the request not
    being issued again. *)
Theorem startAnalysis_no_retry (st : RepositoryAnalysis.State) (n : nat)
    (resp : Axios.outcome unit) :
  let st' := (RepositoryAnalysis.startAnalysis st n resp).1 in
  let evs := (RepositoryAnalysis.startAnalysis st n resp).2 in
  (length (Trace.requests evs) ≤ 1)%nat
  ∧ (∀ e st0 body,
       resp = Axios.Rejected e →
       RepositoryAnalysis.startAnalysis_validate st = inr (st0, body) →
       Trace.requests evs = [body]
       ∧ (∃ t, evs = [RepositoryAnalysis.EvSetInterval 1000;
                      RepositoryAnalysis.EvPost RepositoryAnalysis.generate_url body;
                      RepositoryAnalysis.EvClearInterval;
                      RepositoryAnalysis.EvToast t])
       ∧ RepositoryAnalysis.error st' ≠ EmptyString
       ∧ RepositoryAnalysis.isLoading st' = false).
Proof.
  split.
  - destruct (RepositoryAnalysis.startAnalysis_validate st) as [st1|[st0 body]] eqn:Hv.
    + rewrite (startAnalysis_returned _ _ _ _ Hv). simpl. lia.
    + rewrite (startAnalysis_issued _ _ _ _ _ Hv). by destruct resp.
  - intros e st0 body -> Hv. rewrite (startAnalysis_issued _ _ _ _ _ Hv). simpl.
    repeat split; [by eexists|]. by apply or_else_truthy.
Qed.

Lemma startAnalysis_no_retry_witness :
  let st := RepositoryAnalysis.setAccessToken "ghp_example"
              (RepositoryAnalysis.setGithubUrl "https://github.com/octocat/hello"
                 RepositoryAnalysis.initial) in
  let e := {| Axios.response := None |} in
  length (Trace.requests (RepositoryAnalysis.startAnalysis st 2 (Axios.Rejected e)).2)
  = 1%nat.
Proof.
  intros st e.
  destruct (RepositoryAnalysis.startAnalysis_validate st) as [|[st0 body]] eqn:Hv;
    [by vm_compute in Hv|].
  destruct (startAnalysis_no_retry st 2 (Axios.Rejected e)) as [_ H].
  destruct (H e st0 body eq_refl Hv) as (-> & _). done.
Defined.

(** ** The report format along a session *)

Section Format.
Import Axios RepositoryAnalysis.

Lemma validate_returned_reportFormat st st' :
  startAnalysis_validate st = inl st' → reportFormat st' = reportFormat st.
Proof.
  unfold startAnalysis_validate.
  destruct (if Js.truthy _ then _ else _) as [[o r]|]; [|by intros [= <-]].
  destruct (negb _); [by intros [= <-]|done].
Qed.

Lemma fetchRepositories_reportFormat st resp :
  reportFormat (fetchRepositories st resp).1 = reportFormat st.
Proof. unfold fetchRepositories. by destruct (negb _), resp. Qed.

Lemma fetchRepositories_requests st resp :
  Trace.requests (fetchRepositories st resp).2 = [].
Proof. unfold fetchRepositories. by destruct (negb _), resp. Qed.

Lemma startAnalysis_reportFormat st n resp :
  reportFormat (startAnalysis st n resp).1 = reportFormat st.
Proof.
  destruct (startAnalysis_validate st) as [st1|[st0 body]] eqn:Hv.
  - rewrite (startAnalysis_returned _ _ _ _ Hv).
    by apply validate_returned_reportFormat.
  - rewrite (startAnalysis_issued _ _ _ _ _ Hv).
    apply validate_issued in Hv as (-> & _).
    rewrite in_flight_progress. by destruct resp.
Qed.

Lemma startAnalysis_requests st n resp body :
  body ∈ Trace.requests (startAnalysis st n resp).2 → format body = reportFormat st.
Proof.
  destruct (startAnalysis_validate st) as [st1|[st0 body0]] eqn:Hv.
  - rewrite (startAnalysis_returned _ _ _ _ Hv). simpl. by intros ?%elem_of_nil.
  - rewrite (startAnalysis_issued _ _ _ _ _ Hv).
    apply validate_issued in Hv as (_ & _ & _ & _ & _ & _ & Hf).
    destruct resp; simpl; by intros ->%list_elem_of_singleton.
Qed.

Lemma handle_reportFormat st a :
  reportFormat (handle st a).1
  = match a with ChangeReportFormat v => v | _ => reportFormat st end.
Proof.
  destruct a; try done.
  - apply fetchRepositories_reportFormat.
  - apply startAnalysis_reportFormat.
Qed.

Lemma handle_requests st a body :
  body ∈ Trace.requests (handle st a).2 → format body = reportFormat st.
Proof.
  destruct a; simpl; try by intros ?%elem_of_nil.
  - rewrite fetchRepositories_requests. by intros ?%elem_of_nil.
  - apply startAnalysis_requests.
Qed.

Lemma run_cons st a acts :
  run st (a :: acts)
  = ((run (handle st a).1 acts).1, (handle st a).2 ++ (run (handle st a).1 acts).2).
Proof.
  cbn [run]. destruct (handle st a) as [st' evs]. cbn [fst snd].
  by destruct (run st' acts).
Qed.

Lemma requests_app evs evs' :
  Trace.requests (evs ++ evs') = Trace.requests evs ++ Trace.requests evs'.
Proof. apply omap_app. Qed.

(** The format of the state stays among the options of the select. *)
Lemma run_requests_domain acts st body :
  offered_all st acts →
  reportFormat st ∈ reportFormat_options →
  body ∈ Trace.requests (run st acts).2 →
  format body ∈ reportFormat_options.
Proof.
  revert st. induction acts as [|a acts IH]; intros st Hoff Hin.
  - by intros ?%elem_of_nil.
  - destruct Hoff as [Ha Hoff]. rewrite run_cons. simpl. rewrite requests_app.
    intros [Hb|Hb]%elem_of_app.
    + by rewrite (handle_requests _ _ _ Hb).
    + apply (IH _ Hoff); [|done]. rewrite handle_reportFormat.
      by destruct a.
Qed.

(** Without a selection the format is the one of the state. *)
Lemma run_requests_unchanged acts st body :
  Trace.format_changes acts = [] →
  body ∈ Trace.requests (run st acts).2 →
  format body = reportFormat st.
Proof.
  revert st. induction acts as [|a acts IH]; intros st Hnone.
  - by intros ?%elem_of_nil.
  - rewrite run_cons. simpl. rewrite requests_app.
    assert (Trace.format_changes acts = []
            ∧ reportFormat (handle st a).1 = reportFormat st) as [Hacts Hsame].
    { rewrite handle_reportFormat. by destruct a. }
    intros [Hb|Hb]%elem_of_app.
    + by apply (handle_requests st a).
    + rewrite <- Hsame. by apply IH.
Qed.
End Format.

(** C7. Every report generation request of a session of the page carries a
    format among [html], [pdf] and [markdown]; it is [html] when the user
    never touches the format select; and each of the three is the format of
    some request. *)
Theorem request_format_domain :
  (∀ acts body,
     RepositoryAnalysis.offered_all RepositoryAnalysis.initial acts →
     body ∈ Trace.requests (RepositoryAnalysis.run RepositoryAnalysis.initial acts).2 →
     RepositoryAnalysis.format body ∈ ["html"; "pdf"; "markdown"]
     ∧ (Trace.format_changes acts = [] → RepositoryAnalysis.format body = "html"))
  ∧ (∀ f, f ∈ ["html"; "pdf"; "markdown"] →
       ∃ acts body,
         RepositoryAnalysis.offered_all RepositoryAnalysis.initial acts
         ∧ body ∈ Trace.requests
                    (RepositoryAnalysis.run RepositoryAnalysis.initial acts).2
         ∧ RepositoryAnalysis.format body = f).
Proof.
  split.
  - intros acts body Hoff Hb. split.
    + apply (run_requests_domain acts RepositoryAnalysis.initial); [done| |done].
      apply list_elem_of_here.
    + intros Hnone. by apply (run_requests_unchanged acts RepositoryAnalysis.initial).
  - intros f Hf.
    exists [RepositoryAnalysis.ChangeAccessToken "ghp_example";
            RepositoryAnalysis.ChangeGithubUrl "https://github.com/octocat/hello";
            RepositoryAnalysis.ChangeReportFormat f;
            RepositoryAnalysis.ClickStartAnalysis 0 (Axios.Resolved ())].
    exists {| RepositoryAnalysis.req_owner := Some "octocat";
              RepositoryAnalysis.req_repo := Some "hello";
              RepositoryAnalysis.access_token := "ghp_example";
              RepositoryAnalysis.company_name := None;
              RepositoryAnalysis.include_benchmarks := true;
              RepositoryAnalysis.include_suggestions := true;
              RepositoryAnalysis.format := f |}.
    split; [|split; [|done]].
    + simpl. repeat split; try done. by left.
    + apply list_elem_of_here.
Qed.

Lemma request_format_domain_witness :
  let acts := [RepositoryAnalysis.ChangeAccessToken "ghp_example";
               RepositoryAnalysis.ChangeGithubUrl "https://github.com/octocat/hello";
               RepositoryAnalysis.ClickStartAnalysis 1 (Axios.Resolved ())] in
  Forall (λ body, RepositoryAnalysis.format body = "html")
    (Trace.requests (RepositoryAnalysis.run RepositoryAnalysis.initial acts).2).
Proof.
  intros acts. apply Forall_forall. intros body Hb.
  destruct request_format_domain as [H _].
  apply (H acts body); [|done..].
  simpl. repeat split; try done. by left.
Defined.

(** ** The progress bar

    The numbers are binary64 values and the statements are about them: from
    zero the update reaches the cap at its twenty-ninth run and stays there. *)

Section Progress.
Import Axios RepositoryAnalysis.

Lemma progress_update_cap : progress_update 95%float = 95%float.
Proof. by vm_compute. Qed.

Lemma progress_capped k : Nat.iter (k + 29) progress_update 0%float = 95%float.
Proof.
  induction k as [|k IH].
  - by vm_compute.
  - change (S k + 29)%nat with (S (k + 29)).
    rewrite Nat.iter_succ, IH. apply progress_update_cap.
Qed.

Lemma progress_bounds k :
  let p := Nat.iter k progress_update 0%float in
  (0 <=? p)%float = true
  ∧ (p <=? 95)%float = true
  ∧ (p <=? progress_update p)%float = true.
Proof.
  destruct (decide (29 ≤ k)%nat) as [Hge|Hlt].
  - replace k with ((k - 29) + 29)%nat by lia. rewrite progress_capped.
    by vm_compute.
  - do 29 (destruct k as [|k]; [by vm_compute|]). lia.
Qed.

Lemma float_0_ne_100 : 0%float ≠ 100%float.
Proof.
  intros H. apply (f_equal (λ x, (100 <=? x)%float)) in H. by vm_compute in H.
Qed.

Lemma float_le_95_ne_100 p : (p <=? 95)%float = true → p ≠ 100%float.
Proof. intros H ->. by vm_compute in H. Qed.
End Progress.

(** C9. While the request is in flight the progress starts at zero and, at
    every run of the interval callback, stays between 0 and 95, never
    decreases and is never 100.  When [startAnalysis] ends, the progress is
    100 exactly when the request was issued and answered; it is zero when
    the request failed, and when none was issued. *)
Theorem progress_invariant :
  (∀ st st0 body k,
     RepositoryAnalysis.startAnalysis_validate st = inr (st0, body) →
     let p := RepositoryAnalysis.progress (RepositoryAnalysis.in_flight st0 k) in
     let p' := RepositoryAnalysis.progress (RepositoryAnalysis.in_flight st0 (S k)) in
     RepositoryAnalysis.progress (RepositoryAnalysis.in_flight st0 0) = 0%float
     ∧ p' = RepositoryAnalysis.progress_update p
     ∧ (0 <=? p)%float = true
     ∧ (p <=? 95)%float = true
     ∧ (p <=? p')%float = true
     ∧ p ≠ 100%float)
  ∧ (∀ st n resp,
       let st' := (RepositoryAnalysis.startAnalysis st n resp).1 in
       (RepositoryAnalysis.progress st' = 100%float
        ↔ ∃ st0 body u,
            RepositoryAnalysis.startAnalysis_validate st = inr (st0, body)
            ∧ resp = Axios.Resolved u)
       ∧ (RepositoryAnalysis.progress st' ≠ 100%float →
          RepositoryAnalysis.progress st' = 0%float)).
Proof.
  split.
  - intros st st0 body k Hv. apply validate_issued in Hv as (-> & _).
    rewrite !in_flight_progress. simpl.
    destruct (progress_bounds k) as (H0 & H95 & Hmono).
    repeat split; try done. by apply float_le_95_ne_100.
  - intros st n resp.
    destruct (RepositoryAnalysis.startAnalysis_validate st) as [st1|[st0 body]] eqn:Hv.
    + rewrite (startAnalysis_returned _ _ _ _ Hv).
      assert (RepositoryAnalysis.progress st1 = 0%float) as Hp.
      { revert Hv. unfold RepositoryAnalysis.startAnalysis_validate.
        destruct (if Js.truthy _ then _ else _) as [[o r]|]; [|by intros [= <-]].
        destruct (negb _); [by intros [= <-]|done]. }
      simpl. rewrite Hp. split; [|done]. split.
      * intros H. by destruct float_0_ne_100.
      * by intros (? & ? & ? & ? & _).
    + rewrite (startAnalysis_issued _ _ _ _ _ Hv). destruct resp as [u|e]; simpl.
      * split; [|done]. split; [|done]. intros _. by exists st0, body, u.
      * split; [|done]. split.
        -- intros H. by destruct float_0_ne_100.
        -- by intros (? & ? & ? & _ & ?).
Qed.

Lemma progress_invariant_witness :
  let st := RepositoryAnalysis.setAccessToken "ghp_example"
              (RepositoryAnalysis.setGithubUrl "https://github.com/octocat/hello"
                 RepositoryAnalysis.initial) in
  (RepositoryAnalysis.progress
     (RepositoryAnalysis.in_flight (Trace.reset st) 40) <=? 95)%float = true
  ∧ RepositoryAnalysis.progress
      (RepositoryAnalysis.startAnalysis st 40 (Axios.Resolved ())).1 = 100%float.
Proof.
  intros st. destruct progress_invariant as [Hflight Hend].
  destruct (RepositoryAnalysis.startAnalysis_validate st) as [|[st0 body]] eqn:Hv;
    [by vm_compute in Hv|].
  split.
  - destruct (Hflight st st0 body 40%nat Hv) as (_ & _ & _ & H & _).
    by injection Hv as <- _.
  - destruct (Hend st 40%nat (Axios.Resolved ())) as [[_ H] _].
    apply H. by exists st0, body, ().
Defined.

(** ** The dashboard statistics *)

Section DashboardStats.
Import Axios Dashboard.
Context {Report Repository : Type}.

(** With a user and both answers, the two counts are those of the data and
    the two scores are read off the generator, draw after draw. *)
Lemma fetchDashboardData_stats (st : State Report Repository) u reportsData
    reposData g :
  reportsData ≠ [] →
  stats (fetchDashboardData st (Some u) (Resolved reportsData)
           (Resolved reposData) g).1
  = {| totalReports := Z.of_nat (length reportsData);
       totalRepositories := Z.of_nat (length reposData);
       averageScore :=
         Js.Math_floor (Js.draws g (Js.pos g) * 30)%float + 60;
       techDebtHours :=
         Js.Math_floor (Js.draws g (S (Js.pos g)) * 200)%float + 50 |}.
Proof.
  intros Hne. unfold fetchDashboardData.
  destruct reportsData as [|r rs]; [done|].
  rewrite bool_decide_eq_true_2 by (simpl; lia). done.
Qed.

(** Without reports nothing is drawn and the scores are zero. *)
Lemma fetchDashboardData_no_reports (st : State Report Repository) u reposData g :
  fetchDashboardData st (Some u) (Resolved []) (Resolved reposData) g
  = ({| isLoading := false; reports := [];
        repositories := take 5 reposData;
        stats := {| totalReports := 0;
                    totalRepositories := Z.of_nat (length reposData);
                    averageScore := 0; techDebtHours := 0 |} |}, g).
Proof. done. Qed.
End DashboardStats.

(** C1. The statistics of the dashboard are not a function of the data
    fetched: on one report and no repository, for the same user, a generator
    that draws 0 gives the average score 60 and 50 hours of debt, and a
    generator that draws 0.5 gives 75 and 150; and whatever is fetched, as
    soon as there is a report, two generators give two scores. *)
Theorem dashboard_scores_follow_generator :
  let u := {| AuthContext.username := "octocat";
              AuthContext.avatar := "https://github.com/octocat.png" |} in
  let g0 := {| Js.draws := λ _, 0%float; Js.pos := 0 |} in
  let g1 := {| Js.draws := λ _, 0.5%float; Js.pos := 0 |} in
  let run g := Dashboard.stats
                 (Dashboard.fetchDashboardData (Dashboard.initial (Report := unit))
                    (Some u) (Axios.Resolved [()])
                    (Axios.Resolved ([] : list unit)) g).1 in
  run g0 = {| Dashboard.totalReports := 1; Dashboard.totalRepositories := 0;
              Dashboard.averageScore := 60; Dashboard.techDebtHours := 50 |}
  ∧ run g1 = {| Dashboard.totalReports := 1; Dashboard.totalRepositories := 0;
                Dashboard.averageScore := 75; Dashboard.techDebtHours := 150 |}
  ∧ (∀ (Report Repository : Type) (st : Dashboard.State Report Repository)
       (report : Report) (reportsData : list Report) (reposData : list Repository),
       let stats g := Dashboard.stats
                        (Dashboard.fetchDashboardData st (Some u)
                           (Axios.Resolved (report :: reportsData))
                           (Axios.Resolved reposData) g).1 in
       Dashboard.averageScore (stats g0) ≠ Dashboard.averageScore (stats g1)
       ∧ Dashboard.techDebtHours (stats g0) ≠ Dashboard.techDebtHours (stats g1)).
Proof.
  intros u g0 g1 run. split; [by vm_compute|]. split; [by vm_compute|].
  intros Report Repository st report reportsData reposData stats.
  subst stats. cbv beta.
  rewrite !fetchDashboardData_stats by done. by vm_compute.
Qed.

(** ** The names the report template reads *)

Lemma template_reads_eq :
  ReportTemplate.template_reads
  = [ ["repository_name"]; ["repository_name"]; ["generated_at"];
      ["company_name"]; ["company_name"]; ["overall_score"];
      ["code_quality"; "maintainability_index"];
      ["code_quality"; "test_coverage"]; ["tech_debt"; "debt_ratio"];
      ["code_quality"; "cyclomatic_complexity"];
      ["code_quality"; "maintainability_index"];
      ["code_quality"; "test_coverage"]; ["code_quality"; "lines_of_code"];
      ["commit_frequency"; "daily_average"];
      ["commit_frequency"; "weekly_average"];
      ["commit_frequency"; "contributors_count"];
      ["tech_debt"; "debt_ratio"]; ["tech_debt"; "estimated_hours"];
      ["recommendations"]; ["recommendations"] ].
Proof. by vm_compute. Qed.

(** C2, as stated, fails: the template reads neither
    [quality.maintainability_index] nor [debt.debt_ratio_pct]. *)
Lemma template_misses_contract_names :
  (["quality"; "maintainability_index"] ∈ ReportTemplate.spec_contract_names)
  ∧ (["quality"; "maintainability_index"] ∉ ReportTemplate.template_reads)
  ∧ (["debt"; "debt_ratio_pct"] ∈ ReportTemplate.spec_contract_names)
  ∧ (["debt"; "debt_ratio_pct"] ∉ ReportTemplate.template_reads).
Proof.
  rewrite template_reads_eq. unfold ReportTemplate.spec_contract_names.
  repeat split.
  - repeat first [apply list_elem_of_here | apply list_elem_of_further].
  - by apply (bool_decide_unpack _).
  - repeat first [apply list_elem_of_here | apply list_elem_of_further].
  - by apply (bool_decide_unpack _).
Qed.

(** C2, amended. The template reads the overall score, the maintainability
    index, the debt ratio, the daily commit average and the recommendations
    under the names [overall_score], [code_quality.maintainability_index],
    [tech_debt.debt_ratio], [commit_frequency.daily_average] and
    [recommendations]; every name it reads is rooted at one of eight names of
    the report, none of which is [quality] or [debt]. *)
Theorem template_reads_names :
  (∀ n, n ∈ [ ["overall_score"];
              ["code_quality"; "maintainability_index"];
              ["tech_debt"; "debt_ratio"];
              ["commit_frequency"; "daily_average"];
              ["recommendations"] ] →
        n ∈ ReportTemplate.template_reads)
  ∧ (∀ n, n ∈ ReportTemplate.template_reads →
          ∃ root, head n = Some root
                  ∧ root ∈ [ "repository_name"; "generated_at"; "company_name";
                             "overall_score"; "code_quality"; "tech_debt";
                             "commit_frequency"; "recommendations" ]
                  ∧ root ≠ "quality" ∧ root ≠ "debt").
Proof.
  rewrite template_reads_eq. split.
  - apply Forall_forall. repeat constructor;
      repeat first [apply list_elem_of_here | apply list_elem_of_further].
  - apply Forall_forall. repeat constructor;
      (eexists; split; [done|]; split; [|done];
       repeat first [apply list_elem_of_here | apply list_elem_of_further]).
Qed.

Lemma template_reads_names_witness :
  ["tech_debt"; "debt_ratio"] ∈ ReportTemplate.template_reads
  ∧ ["code_quality"; "maintainability_index"] ∈ ReportTemplate.template_reads.
Proof.
  destruct template_reads_names as [H _].
  split; apply H;
    repeat first [apply list_elem_of_here | apply list_elem_of_further].
Defined.

(** * Further properties of the code *)

(** ** [parseGitHubUrl]: what a result says about the URL *)

Section SearchFirst.
Context {R : Type} (re : string → option R).

(** A match found is at the first position that has one. *)
Lemma search_first s m :
  Regex.search re s = Some m →
  ∃ pre s', s = pre +:+ s' ∧ re s' = Some m
            ∧ ∀ p1 p2, pre = p1 +:+ p2 → p2 ≠ EmptyString →
                       re (p2 +:+ s') = None.
Proof.
  induction s as [|a s IH]; rewrite search_unfold; intros H.
  - exists EmptyString, EmptyString. destruct (re EmptyString); [|done].
    repeat split; [done|]. by intros [|? p1] [|? p2].
  - destruct (re (String a s)) as [m'|] eqn:E.
    + exists EmptyString, (String a s). repeat split; [congruence|].
      by intros [|? p1] [|? p2].
    + destruct (IH H) as (pre & s' & -> & Hm & Hfirst).
      exists (String a pre), s'. repeat split; [done|].
      intros [|b p1] p2 Hp Hne.
      * rewrite string_app_nil_l in Hp. subst p2. by rewrite string_app_cons.
      * rewrite string_app_cons in Hp. injection Hp as <- ->. by eapply Hfirst.
Qed.
End SearchFirst.

Lemma avoids_app c s t :
  Pattern.avoids c (s +:+ t) ↔ Pattern.avoids c s ∧ Pattern.avoids c t.
Proof.
  induction s as [|a s IH]; [by rewrite string_app_nil_l; intuition|].
  rewrite string_app_cons. simpl. rewrite IH. intuition.
Qed.

Lemma replace_avoids c pat rep s :
  Pattern.avoids c rep → Pattern.avoids c s →
  Pattern.avoids c (Js.replace pat rep s).
Proof.
  intros Hrep. induction s as [|a s IH]; intros Hs; rewrite replace_unfold.
  - destruct (Js.strip_prefix pat _) as [rest|] eqn:E; [|done].
    apply strip_prefix_Some in E.
    apply avoids_app. split; [done|].
    destruct pat; [by rewrite string_app_nil_l in E; subst|done].
  - destruct (Js.strip_prefix pat _) as [rest|] eqn:E.
    + apply strip_prefix_Some in E. rewrite E in Hs.
      apply avoids_app in Hs as [_ Hs]. by apply avoids_app.
    + destruct Hs as [Ha Hs]. split; [done|]. by apply IH.
Qed.

Lemma replace_empty pat s :
  pat ≠ EmptyString →
  Js.replace pat EmptyString s = EmptyString ↔ s = EmptyString ∨ s = pat.
Proof.
  intros Hpat. rewrite replace_unfold.
  destruct (Js.strip_prefix pat s) as [rest|] eqn:E.
  - apply strip_prefix_Some in E as ->. rewrite string_app_nil_l. split.
    + intros ->. right. by rewrite string_app_nil_r.
    + intros [H|H].
      * destruct pat; [done|]. by rewrite string_app_cons in H.
      * rewrite <- (string_app_nil_r pat) in H at 2. by apply (inj _) in H.
  - destruct s as [|a s].
    + by split; [left|].
    + split; [done|]. intros [H|H]; [done|]. subst pat.
      pose proof (strip_prefix_app (String a s) EmptyString) as E'.
      rewrite string_app_nil_r in E'. congruence.
Qed.

(** X1. [parseGitHubUrl] returns a result exactly when the pattern occurs in
    the URL, and the result is then read off its leftmost occurrence: the
    owner is the first segment, the repository the second with its first
    [.git] removed. *)
Theorem parseGitHubUrl_characterised (url : string)
    (p : RepositoryAnalysis.ParsedUrl) :
  RepositoryAnalysis.parseGitHubUrl url = Some p
  ↔ ∃ pre o r rest,
      Pattern.occurs_at url pre o r rest
      ∧ Pattern.leftmost url pre
      ∧ p = {| RepositoryAnalysis.owner := o;
               RepositoryAnalysis.repo := Js.replace ".git" EmptyString r |}.
Proof.
  split.
  - unfold RepositoryAnalysis.parseGitHubUrl.
    destruct (Regex.search _ url) as [m|] eqn:E; [|done].
    apply search_first in E as (pre & s' & -> & E & Hfirst).
    apply regex_inv in E as (o & r & rest & Hocc & ->). simpl.
    intros [= <-]. exists pre, o, r, rest. split; [|split; [|done]].
    + apply (occurs_at_shift pre EmptyString). by rewrite string_app_nil_l.
    + intros pre' o' r' rest' Hocc'.
      destruct (decide (String.length pre ≤ String.length pre')%nat) as [|Hlt];
        [done|exfalso].
      pose proof Hocc' as (E' & Hrest').
      apply string_app_eq_split in E' as (d & Hd & -> & E'); [|lia].
      specialize (Hfirst pre' d eq_refl Hd).
      rewrite <- E', (regex_at _ o' r' rest') in Hfirst; [done|].
      by split.
  - intros (pre & o & r & rest & Hocc & Hleft & ->).
    by apply (parseGitHubUrl_leftmost url pre o r rest).
Qed.

(** X2. In every result of [parseGitHubUrl] the owner is not empty and
    neither the owner nor the repository holds a slash. *)
Theorem parseGitHubUrl_result_segments (url : string)
    (p : RepositoryAnalysis.ParsedUrl) :
  RepositoryAnalysis.parseGitHubUrl url = Some p →
  RepositoryAnalysis.owner p ≠ EmptyString
  ∧ Pattern.avoids "/" (RepositoryAnalysis.owner p)
  ∧ Pattern.avoids "/" (RepositoryAnalysis.repo p).
Proof.
  intros H. apply parseGitHubUrl_characterised in H
    as (pre & o & r & rest & (_ & Ho & _ & Hao & Har & _) & _ & ->).
  simpl. repeat split; try done. by apply replace_avoids.
Qed.

Lemma parseGitHubUrl_result_segments_witness :
  let p := {| RepositoryAnalysis.owner := "octocat";
              RepositoryAnalysis.repo := "hello" |} in
  RepositoryAnalysis.owner p ≠ EmptyString
  ∧ Pattern.avoids "/" (RepositoryAnalysis.owner p)
  ∧ Pattern.avoids "/" (RepositoryAnalysis.repo p).
Proof.
  intros p.
  by apply (parseGitHubUrl_result_segments "git@github.com/octocat/hello.git").
Defined.

(** X3. The repository returned is the empty string exactly when the
    repository segment of the URL is [.git]: such a URL passes
    [parseGitHubUrl] with an empty repository name. *)
Theorem parseGitHubUrl_empty_repo (url pre o r rest : string) :
  Pattern.occurs_at url pre o r rest → Pattern.leftmost url pre →
  ∃ p, RepositoryAnalysis.parseGitHubUrl url = Some p
       ∧ RepositoryAnalysis.owner p = o
       ∧ (RepositoryAnalysis.repo p = EmptyString ↔ r = ".git").
Proof.
  intros Hocc Hleft. eexists. split; [by apply (parseGitHubUrl_leftmost url pre o r rest)|].
  split; [done|]. simpl. rewrite replace_empty by done.
  destruct Hocc as (_ & _ & Hr & _). intuition.
Qed.

Lemma parseGitHubUrl_empty_repo_witness :
  RepositoryAnalysis.parseGitHubUrl "https://github.com/octocat/.git"
  = Some {| RepositoryAnalysis.owner := "octocat";
            RepositoryAnalysis.repo := EmptyString |}.
Proof.
  assert (Pattern.occurs_at "https://github.com/octocat/.git"
            "https://" "octocat" ".git" EmptyString) as Hocc.
  { repeat split; try done; by intros [=]. }
  destruct (parseGitHubUrl_empty_repo _ _ _ _ _ Hocc) as (p & Hp & Ho & Hr).
  { apply (leftmost_clean_prefix _ _ _ _ _ Hocc). by apply includes_false. }
  rewrite Hp. destruct p as [o r]. simpl in *. subst o.
  by rewrite (proj2 Hr eq_refl).
Defined.

(** X4. After a prefix that does not contain [github.com/] (such as
    [https://]), what follows the repository segment is ignored: the URL of a
    repository, the same with a trailing slash and the URL of any page under
    it parse alike. *)
Theorem parseGitHubUrl_ignores_rest (pre o r rest rest' : string) :
  ¬ Pattern.occurs "github.com/" pre →
  o ≠ EmptyString → r ≠ EmptyString →
  Pattern.avoids "/" o → Pattern.avoids "/" r →
  Pattern.delimited "/" rest → Pattern.delimited "/" rest' →
  RepositoryAnalysis.parseGitHubUrl
    (pre +:+ "github.com/" +:+ o +:+ "/" +:+ r +:+ rest)
  = RepositoryAnalysis.parseGitHubUrl
      (pre +:+ "github.com/" +:+ o +:+ "/" +:+ r +:+ rest').
Proof.
  intros Hclean Ho Hr Hao Har Hrest Hrest'.
  rewrite (parseGitHubUrl_leftmost _ pre o r rest),
          (parseGitHubUrl_leftmost _ pre o r rest'); try done.
  - by apply (leftmost_clean_prefix _ _ o r rest').
  - by apply (leftmost_clean_prefix _ _ o r rest).
Qed.

Lemma parseGitHubUrl_ignores_rest_witness :
  RepositoryAnalysis.parseGitHubUrl "https://github.com/octocat/hello"
  = RepositoryAnalysis.parseGitHubUrl "https://github.com/octocat/hello/tree/main".
Proof.
  apply (parseGitHubUrl_ignores_rest "https://" "octocat" "hello"
           EmptyString "/tree/main"); try done.
  by apply includes_false.
Defined.

(** ** [String.prototype.split] *)

Lemma split_avoids sep s : Pattern.avoids sep s → Js.split sep s = [s].
Proof.
  induction s as [|c s IH]; [done|]. intros [Hc Hs]. simpl.
  by rewrite (ascii_eqb_ne _ _ Hc), (IH Hs).
Qed.

Lemma split_app_sep sep a b :
  Pattern.avoids sep a →
  Js.split sep (a +:+ String sep b) = a :: Js.split sep b.
Proof.
  induction a as [|c a IH]; intros Ha.
  - rewrite string_app_nil_l. simpl. by rewrite ascii_eqb_refl.
  - destruct Ha as [Hc Ha]. rewrite string_app_cons. simpl.
    by rewrite (ascii_eqb_ne _ _ Hc), (IH Ha).
Qed.



(** ** The target of the request *)

Section Target.
Import Axios RepositoryAnalysis.

Lemma validate_selected st :
  selectedRepo st ≠ EmptyString → accessToken st ≠ EmptyString →
  startAnalysis_validate st
  = inr (Trace.reset st,
         Trace.body_of st (Js.split "/" (selectedRepo st) !! 0%nat)
                          (Js.split "/" (selectedRepo st) !! 1%nat)).
Proof.
  intros Hsel%truthy_true Htok%truthy_true.
  unfold startAnalysis_validate. fold (Trace.reset st).
  change (selectedRepo (Trace.reset st)) with (selectedRepo st).
  change (accessToken (Trace.reset st)) with (accessToken st).
  by rewrite Hsel, Htok.
Qed.

Lemma validate_url st p :
  selectedRepo st = EmptyString → accessToken st ≠ EmptyString →
  parseGitHubUrl (githubUrl st) = Some p →
  startAnalysis_validate st
  = inr (Trace.reset st, Trace.body_of st (Some (owner p)) (Some (repo p))).
Proof.
  intros Hsel%truthy_false Htok%truthy_true Hp.
  unfold startAnalysis_validate. fold (Trace.reset st).
  change (selectedRepo (Trace.reset st)) with (selectedRepo st).
  change (githubUrl (Trace.reset st)) with (githubUrl st).
  change (accessToken (Trace.reset st)) with (accessToken st).
  by rewrite Hsel, Hp, Htok.
Qed.

Lemma startAnalysis_issued_requests st n resp st0 body :
  startAnalysis_validate st = inr (st0, body) →
  Trace.requests (startAnalysis st n resp).2 = [body].
Proof.
  intros Hv. rewrite (startAnalysis_issued _ _ _ _ _ Hv). by destruct resp.
Qed.
End Target.

(** X5. With a token, starting the analysis of a repository chosen in the
    list, whose owner and name hold no slash, issues one request, for that
    owner and that name, with the form as it stands. *)
Theorem startAnalysis_selected_repository (st : RepositoryAnalysis.State)
    (r : RepositoryAnalysis.Repository) (n : nat) (resp : Axios.outcome unit) :
  RepositoryAnalysis.selectedRepo st
  = RepositoryAnalysis.r_owner r +:+ "/" +:+ RepositoryAnalysis.r_name r →
  Pattern.avoids "/" (RepositoryAnalysis.r_owner r) →
  Pattern.avoids "/" (RepositoryAnalysis.r_name r) →
  RepositoryAnalysis.accessToken st ≠ EmptyString →
  Trace.requests (RepositoryAnalysis.startAnalysis st n resp).2
  = [Trace.body_of st (Some (RepositoryAnalysis.r_owner r))
                      (Some (RepositoryAnalysis.r_name r))].
Proof.
  intros Hsel Ho Hn Htok.
  assert (RepositoryAnalysis.selectedRepo st ≠ EmptyString) as Hne.
  { rewrite Hsel. by destruct (RepositoryAnalysis.r_owner r). }
  rewrite (startAnalysis_issued_requests st n resp _ _
             (validate_selected st Hne Htok)).
  rewrite Hsel, (string_app_cons "/" EmptyString), string_app_nil_l.
  by rewrite (split_app_sep "/" _ _ Ho), (split_avoids "/" _ Hn).
Qed.

Lemma startAnalysis_selected_repository_witness :
  let st := RepositoryAnalysis.setSelectedRepo "octocat/hello"
              (RepositoryAnalysis.setAccessToken "ghp_example"
                 RepositoryAnalysis.initial) in
  Trace.requests (RepositoryAnalysis.startAnalysis st 2 (Axios.Resolved ())).2
  = [Trace.body_of st (Some "octocat") (Some "hello")].
Proof.
  intros st.
  by apply (startAnalysis_selected_repository st
              {| RepositoryAnalysis.r_owner := "octocat";
                 RepositoryAnalysis.r_name := "hello" |}).
Defined.

(** X6. With a token and no repository chosen, starting the analysis of a
    URL whose leftmost occurrence of the pattern reads
    [github.com/<o>/<r>] issues one request, for the owner [o] and the
    repository [r] without its first [.git]. *)
Theorem startAnalysis_url_target (st : RepositoryAnalysis.State)
    (pre o r rest : string) (n : nat) (resp : Axios.outcome unit) :
  RepositoryAnalysis.selectedRepo st = EmptyString →
  RepositoryAnalysis.accessToken st ≠ EmptyString →
  Pattern.occurs_at (RepositoryAnalysis.githubUrl st) pre o r rest →
  Pattern.leftmost (RepositoryAnalysis.githubUrl st) pre →
  Trace.requests (RepositoryAnalysis.startAnalysis st n resp).2
  = [Trace.body_of st (Some o) (Some (Js.replace ".git" EmptyString r))].
Proof.
  intros Hsel Htok Hocc Hleft.
  by rewrite (startAnalysis_issued_requests st n resp _ _
                (validate_url st _ Hsel Htok
                   (parseGitHubUrl_leftmost _ _ _ _ _ Hocc Hleft))).
Qed.

Lemma startAnalysis_url_target_witness :
  let st := RepositoryAnalysis.setGithubUrl "https://github.com/octocat/hello.git"
              (RepositoryAnalysis.setAccessToken "ghp_example"
                 RepositoryAnalysis.initial) in
  Trace.requests (RepositoryAnalysis.startAnalysis st 2 (Axios.Resolved ())).2
  = [Trace.body_of st (Some "octocat") (Some "hello")].
Proof.
  intros st.
  assert (Pattern.occurs_at (RepositoryAnalysis.githubUrl st)
            "https://" "octocat" "hello.git" EmptyString) as Hocc.
  { repeat split; try done; by intros [=]. }
  apply (startAnalysis_url_target st "https://" "octocat" "hello.git" EmptyString
           2%nat (Axios.Resolved ()) eq_refl); [done|exact Hocc|].
  apply (leftmost_clean_prefix _ _ _ _ _ Hocc). by apply includes_false.
Defined.

(** ** What [startAnalysis] and [fetchRepositories] leave alone *)

Section Form.
Import Axios RepositoryAnalysis.

Lemma validate_returned_inv st st' :
  startAnalysis_validate st = inl st' →
  ∃ msg, (msg = Trace.url_error ∨ msg = Trace.token_error)
         ∧ st' = setIsLoading false (setError msg (Trace.reset st)).
Proof.
  unfold startAnalysis_validate. fold (Trace.reset st).
  destruct (if Js.truthy _ then _ else _) as [[o r]|].
  - destruct (negb _); [|done]. intros [= <-]. exists Trace.token_error.
    by split; [right|].
  - intros [= <-]. exists Trace.url_error. by split; [left|].
Qed.

Lemma settle_setProgress st p resp :
  startAnalysis_settle (setProgress p st) resp = startAnalysis_settle st resp.
Proof. by destruct resp. Qed.

Lemma startAnalysis_same_form st n resp :
  Trace.same_form st (startAnalysis st n resp).1
  ∧ repositories (startAnalysis st n resp).1 = repositories st.
Proof.
  destruct (startAnalysis_validate st) as [st1|[st0 body]] eqn:Hv.
  - rewrite (startAnalysis_returned _ _ _ _ Hv).
    by apply validate_returned_inv in Hv as (msg & _ & ->).
  - rewrite (startAnalysis_issued _ _ _ _ _ Hv).
    apply validate_issued in Hv as (-> & _).
    rewrite in_flight_progress, settle_setProgress. by destruct resp.
Qed.

Lemma fetchRepositories_same_form st resp :
  Trace.same_form st (fetchRepositories st resp).1.
Proof. unfold fetchRepositories. by destruct (negb _), resp. Qed.





Lemma handle_exclusive st a :
  githubUrl st = EmptyString ∨ selectedRepo st = EmptyString →
  githubUrl (handle st a).1 = EmptyString
  ∨ selectedRepo (handle st a).1 = EmptyString.
Proof.
  intros H. destruct a as [v|resp|v|v|v|v|b|b|n resp]; simpl; try done.
  - by destruct (fetchRepositories_same_form st resp)
      as (-> & _ & _ & _ & _ & _ & ->).
  - by left.
  - by right.
  - by destruct (startAnalysis_same_form st n resp)
      as ((-> & _ & _ & _ & _ & _ & ->) & _).
Qed.

Lemma startAnalysis_url_rejected st n resp :
  selectedRepo st = EmptyString → ¬ Pattern.matches (githubUrl st) →
  startAnalysis st n resp
  = (setIsLoading false (setError Trace.url_error (Trace.reset st)), []).
Proof.
  intros Hsel%truthy_false Hno%parseGitHubUrl_None.
  apply startAnalysis_returned.
  unfold startAnalysis_validate. fold (Trace.reset st).
  change (selectedRepo (Trace.reset st)) with (selectedRepo st).
  change (githubUrl (Trace.reset st)) with (githubUrl st).
  by rewrite Hsel, Hno.
Qed.

Lemma run_exclusive acts st :
  githubUrl st = EmptyString ∨ selectedRepo st = EmptyString →
  githubUrl (run st acts).1 = EmptyString
  ∨ selectedRepo (run st acts).1 = EmptyString.
Proof.
  revert st. induction acts as [|a acts IH]; intros st H; [done|].
  rewrite run_cons. simpl. by apply IH, handle_exclusive.
Qed.
End Form.



(** X8. The URL and the selection exclude each other: after any sequence
    of actions on the page, the URL input is empty or no repository is
    selected. *)
Theorem url_and_selection_exclusive (acts : list RepositoryAnalysis.action) :
  let st := (RepositoryAnalysis.run RepositoryAnalysis.initial acts).1 in
  RepositoryAnalysis.githubUrl st = EmptyString
  ∨ RepositoryAnalysis.selectedRepo st = EmptyString.
Proof. apply run_exclusive. by left. Qed.

(** X9. When the start button is enabled, [startAnalysis] either issues its
    request or stops on the URL message, no repository being selected and the
    URL not matching; it issues the request whenever a repository is
    selected.  Its own check of the token never fires behind the button. *)
Theorem start_button_guard (st : RepositoryAnalysis.State) (n : nat)
    (resp : Axios.outcome unit) :
  RepositoryAnalysis.offered st (RepositoryAnalysis.ClickStartAnalysis n resp) →
  let st' := (RepositoryAnalysis.startAnalysis st n resp).1 in
  let evs := (RepositoryAnalysis.startAnalysis st n resp).2 in
  ((∃ body, Trace.requests evs = [body])
   ∨ (RepositoryAnalysis.selectedRepo st = EmptyString
      ∧ ¬ Pattern.matches (RepositoryAnalysis.githubUrl st)
      ∧ evs = []
      ∧ RepositoryAnalysis.error st' = Trace.url_error))
  ∧ (RepositoryAnalysis.selectedRepo st ≠ EmptyString →
     ∃ body, Trace.requests evs = [body]).
Proof.
  intros (_ & _ & Htok). simpl.
  assert (RepositoryAnalysis.selectedRepo st ≠ EmptyString →
          ∃ body, Trace.requests (RepositoryAnalysis.startAnalysis st n resp).2
                  = [body]) as Hsel.
  { intros Hsel. eexists.
    apply (startAnalysis_issued_requests _ _ _ _ _ (validate_selected st Hsel Htok)). }
  split; [|done].
  destruct (decide (RepositoryAnalysis.selectedRepo st = EmptyString)) as [He|Hne];
    [|by left; apply Hsel].
  destruct (RepositoryAnalysis.parseGitHubUrl (RepositoryAnalysis.githubUrl st))
    as [p|] eqn:Hp.
  - left. eexists.
    apply (startAnalysis_issued_requests _ _ _ _ _ (validate_url st p He Htok Hp)).
  - right. apply parseGitHubUrl_None in Hp.
    by rewrite (startAnalysis_url_rejected st n resp He Hp).
Qed.

Lemma start_button_guard_witness :
  let st := RepositoryAnalysis.setSelectedRepo "octocat/hello"
              (RepositoryAnalysis.setAccessToken "ghp_example"
                 RepositoryAnalysis.initial) in
  ∃ body,
    Trace.requests (RepositoryAnalysis.startAnalysis st 1 (Axios.Resolved ())).2
    = [body].
Proof.
  intros st.
  destruct (start_button_guard st 1 (Axios.Resolved ())) as [_ H].
  - repeat split; try done. by right.
  - by apply H.
Defined.

(** X10. When the request is answered, whatever error was shown before and
    however many times the interval callback ran, the page is left with the
    error cleared, the progress at 100 and the loading flag down, the form and
    the list of repositories as they were; after the request, the timer is
    stopped, one toast of success is shown and the page goes to [/reports]
    after 1500 milliseconds. *)
Theorem startAnalysis_success (st st0 : RepositoryAnalysis.State)
    (body : RepositoryAnalysis.GenerateRequest) (n : nat) (u : unit) :
  RepositoryAnalysis.startAnalysis_validate st = inr (st0, body) →
  RepositoryAnalysis.startAnalysis st n (Axios.Resolved u)
  = ({| RepositoryAnalysis.githubUrl := RepositoryAnalysis.githubUrl st;
        RepositoryAnalysis.accessToken := RepositoryAnalysis.accessToken st;
        RepositoryAnalysis.companyName := RepositoryAnalysis.companyName st;
        RepositoryAnalysis.reportFormat := RepositoryAnalysis.reportFormat st;
        RepositoryAnalysis.includeBenchmarks := RepositoryAnalysis.includeBenchmarks st;
        RepositoryAnalysis.includeSuggestions := RepositoryAnalysis.includeSuggestions st;
        RepositoryAnalysis.isLoading := false;
        RepositoryAnalysis.progress := 100%float;
        RepositoryAnalysis.error := EmptyString;
        RepositoryAnalysis.repositories := RepositoryAnalysis.repositories st;
        RepositoryAnalysis.selectedRepo := RepositoryAnalysis.selectedRepo st |},
     [RepositoryAnalysis.EvSetInterval 1000;
      RepositoryAnalysis.EvPost RepositoryAnalysis.generate_url body;
      RepositoryAnalysis.EvClearInterval;
      RepositoryAnalysis.EvToast
        {| RepositoryAnalysis.title := "Analysis Complete";
           RepositoryAnalysis.description :=
             "Repository analysis and report generation successful";
           RepositoryAnalysis.t_status := "success" |};
      RepositoryAnalysis.EvNavigateAfter 1500 "/reports"]).
Proof.
  intros Hv. rewrite (startAnalysis_issued _ _ _ _ _ Hv).
  apply validate_issued in Hv as (-> & _).
  by rewrite in_flight_progress, settle_setProgress.
Qed.

Lemma startAnalysis_success_witness :
  let st := RepositoryAnalysis.setError "Error during analysis"
              (RepositoryAnalysis.setAccessToken "ghp_example"
                 (RepositoryAnalysis.setGithubUrl "https://github.com/octocat/hello"
                    RepositoryAnalysis.initial)) in
  RepositoryAnalysis.error
    (RepositoryAnalysis.startAnalysis st 7 (Axios.Resolved ())).1 = EmptyString
  ∧ Trace.navigations
      (RepositoryAnalysis.startAnalysis st 7 (Axios.Resolved ())).2 = ["/reports"].
Proof.
  intros st.
  destruct (RepositoryAnalysis.startAnalysis_validate st) as [|[st0 body]] eqn:Hv;
    [by vm_compute in Hv|].
  by rewrite (startAnalysis_success st st0 body 7 () Hv).
Defined.

(** X11. How long the request takes leaves no trace: the state and the
    effects of [startAnalysis] do not depend on the number of runs of the
    interval callback. *)
Theorem startAnalysis_ticks_irrelevant (st : RepositoryAnalysis.State)
    (n m : nat) (resp : Axios.outcome unit) :
  RepositoryAnalysis.startAnalysis st n resp
  = RepositoryAnalysis.startAnalysis st m resp.
Proof.
  destruct (RepositoryAnalysis.startAnalysis_validate st) as [st1|[st0 body]] eqn:Hv.
  - by rewrite !(startAnalysis_returned _ _ _ _ Hv).
  - rewrite !(startAnalysis_issued _ _ _ _ _ Hv).
    by rewrite !in_flight_progress, !settle_setProgress.
Qed.

(** X12. [fetchRepositories] never issues a report generation request
    and never touches the form.  Without a token it asks nothing, sets the
    token message and keeps the list.  With one it asks once, with that
    token: an answer replaces the list and clears the error; a failure
    keeps the list fetched before and shows the detail of the answer, or,
    when there is none, one text in the alert and another in the toast. *)
Theorem fetchRepositories_outcomes (st : RepositoryAnalysis.State)
    (resp : Axios.outcome (list RepositoryAnalysis.Repository)) :
  let st' := (RepositoryAnalysis.fetchRepositories st resp).1 in
  let evs := (RepositoryAnalysis.fetchRepositories st resp).2 in
  Trace.same_form st st'
  ∧ Trace.requests evs = []
  ∧ (RepositoryAnalysis.accessToken st = EmptyString →
     evs = []
     ∧ RepositoryAnalysis.error st' = Trace.token_error
     ∧ RepositoryAnalysis.repositories st' = RepositoryAnalysis.repositories st)
  ∧ (RepositoryAnalysis.accessToken st ≠ EmptyString →
     RepositoryAnalysis.isLoading st' = false
     ∧ (∃ t, evs = [RepositoryAnalysis.EvGet RepositoryAnalysis.repositories_url
                      (RepositoryAnalysis.accessToken st);
                    RepositoryAnalysis.EvToast t])
     ∧ (∀ d, resp = Axios.Resolved d →
          RepositoryAnalysis.repositories st' = d
          ∧ RepositoryAnalysis.error st' = EmptyString)
     ∧ (∀ e, resp = Axios.Rejected e →
          RepositoryAnalysis.repositories st' = RepositoryAnalysis.repositories st
          ∧ RepositoryAnalysis.error st'
            = Js.or_else (Axios.error_detail e) "Error fetching repositories"
          ∧ Trace.toasts evs
            = [{| RepositoryAnalysis.title := "Error";
                  RepositoryAnalysis.description :=
                    Js.or_else (Axios.error_detail e) "Failed to fetch repositories";
                  RepositoryAnalysis.t_status := "error" |}])).
Proof.
  split; [apply fetchRepositories_same_form|].
  split; [apply fetchRepositories_requests|].
  unfold RepositoryAnalysis.fetchRepositories. split.
  - intros Htok%truthy_false. by rewrite Htok.
  - intros Htok%truthy_true. rewrite Htok. simpl.
    destruct resp as [d|e]; simpl.
    + split; [done|]. split; [by eexists|].
      split; [by intros d' [= <-]|by intros e' [=]].
    + split; [done|]. split; [by eexists|].
      split; [by intros d' [=]|by intros e' [= <-]].
Qed.

(** ** The progress bar, tick by tick *)

Lemma progress_before_cap k :
  (k < 29)%nat →
  let p := Nat.iter k RepositoryAnalysis.progress_update 0%float in
  (p <? 95)%float = true
  ∧ (p <? RepositoryAnalysis.progress_update p)%float = true.
Proof.
  intros Hk. do 29 (destruct k as [|k]; [by vm_compute|]). lia.
Qed.

(** X13. While the request is in flight the progress grows strictly at
    each of the first twenty-nine runs of the interval callback, and it is at
    its cap of 95 exactly from the twenty-ninth run on. *)
Theorem progress_reaches_cap (st st0 : RepositoryAnalysis.State)
    (body : RepositoryAnalysis.GenerateRequest) (k : nat) :
  RepositoryAnalysis.startAnalysis_validate st = inr (st0, body) →
  let p := RepositoryAnalysis.progress (RepositoryAnalysis.in_flight st0 k) in
  let p' := RepositoryAnalysis.progress (RepositoryAnalysis.in_flight st0 (S k)) in
  (p = 95%float ↔ (29 ≤ k)%nat)
  ∧ ((k < 29)%nat → (p <? p')%float = true).
Proof.
  intros Hv. apply validate_issued in Hv as (-> & _).
  rewrite !in_flight_progress. simpl. split.
  - split.
    + intros Hp. destruct (decide (29 ≤ k)%nat) as [|Hlt]; [done|exfalso].
      destruct (progress_before_cap k) as [H _]; [lia|].
      simpl in H. rewrite Hp in H. by vm_compute in H.
    + intros Hge. replace k with ((k - 29) + 29)%nat by lia.
      apply progress_capped.
  - intros Hlt. by destruct (progress_before_cap k Hlt) as [_ H].
Qed.

Lemma progress_reaches_cap_witness :
  let st := RepositoryAnalysis.setAccessToken "ghp_example"
              (RepositoryAnalysis.setGithubUrl "https://github.com/octocat/hello"
                 RepositoryAnalysis.initial) in
  RepositoryAnalysis.progress
    (RepositoryAnalysis.in_flight (Trace.reset st) 29) = 95%float
  ∧ RepositoryAnalysis.progress
      (RepositoryAnalysis.in_flight (Trace.reset st) 28) ≠ 95%float.
Proof.
  intros st.
  destruct (RepositoryAnalysis.startAnalysis_validate st) as [|[st0 body]] eqn:Hv;
    [by vm_compute in Hv|].
  assert (st0 = Trace.reset st) as Hst0 by (by injection Hv as <- _).
  split.
  - destruct (progress_reaches_cap st st0 body 29 Hv) as [[_ H] _].
    rewrite <- Hst0. apply H. lia.
  - destruct (progress_reaches_cap st st0 body 28 Hv) as [[H _] _].
    rewrite <- Hst0. intros Hp. apply H in Hp. lia.
Defined.

(** ** The provider: start-up, reload, sessions *)

Section Provider.
Import Axios AuthContext.

Lemma or_undefined_Some s t : Js.or_undefined s = Some t ↔ s = t ∧ t ≠ EmptyString.
Proof.
  unfold Js.or_undefined. destruct s as [|a s]; simpl.
  - by split; [|intros [<- ?]].
  - split; [by intros [= <-]|by intros [-> _]].
Qed.

Lemma initial_token ls route t :
  githubToken (initial ls route) = Some t
  ↔ ls !! "github_token" = Some t ∧ t ≠ EmptyString.
Proof.
  simpl. destruct (ls !! "github_token") as [s|]; simpl.
  - rewrite or_undefined_Some. split; [by intros [-> ?]|by intros [[= ->] ?]].
  - by split; [|intros []].
Qed.

Lemma validateToken_connected st t c :
  githubToken st = Some t → status c = "connected" →
  validateToken st (Resolved (Some c))
  = {| user := Some (mkUser c); githubToken := Some t; loading := false;
       localStorage := localStorage st; location := location st |}.
Proof.
  intros Ht Hc. unfold validateToken. rewrite Ht.
  by rewrite (proj2 (connected_Some (Some c) c) (conj eq_refl Hc)).
Qed.

Lemma validateToken_refused st t resp :
  githubToken st = Some t →
  (∀ c, resp = Resolved (Some c) → status c ≠ "connected") →
  validateToken st resp = setLoading false (logout st).
Proof.
  intros Ht Hno. unfold validateToken. rewrite Ht. destruct resp as [d|e]; [|done].
  assert (connected d = None) as ->; [|done].
  apply connected_None. intros c ->. by apply Hno.
Qed.

Lemma validateToken_no_token st resp :
  githubToken st = None → validateToken st resp = setLoading false st.
Proof. intros Ht. unfold validateToken. by rewrite Ht. Qed.



End Provider.

(** X14. Start-up.  With a non-empty token in [localStorage], the provider
    validates it: a [connected] answer sets the user and keeps the token; any
    other answer, or a failure of the request, logs out, removes the stored
    token and sends to [/login].  With no stored token, or an empty one, the
    provider stays logged out where it is and leaves the storage alone. *)
Theorem startup_validates_stored_token (ls : gmap string string)
    (route : string) (resp : Axios.outcome (option AuthContext.ConnectData)) :
  let st := AuthContext.validateToken (AuthContext.initial ls route) resp in
  (∀ t c, ls !! "github_token" = Some t → t ≠ EmptyString →
     resp = Axios.Resolved (Some c) → AuthContext.status c = "connected" →
     st = {| AuthContext.user := Some (AuthContext.mkUser c);
             AuthContext.githubToken := Some t;
             AuthContext.loading := false;
             AuthContext.localStorage := ls;
             AuthContext.location := route |})
  ∧ (∀ t, ls !! "github_token" = Some t → t ≠ EmptyString →
       (∀ c, resp = Axios.Resolved (Some c) → AuthContext.status c ≠ "connected") →
       st = {| AuthContext.user := None;
               AuthContext.githubToken := None;
               AuthContext.loading := false;
               AuthContext.localStorage := delete "github_token" ls;
               AuthContext.location := "/login" |})
  ∧ (ls !! "github_token" = None ∨ ls !! "github_token" = Some EmptyString →
     st = {| AuthContext.user := None;
             AuthContext.githubToken := None;
             AuthContext.loading := false;
             AuthContext.localStorage := ls;
             AuthContext.location := route |}).
Proof.
  split; [|split].
  - intros t c Ht Hne -> Hc.
    by rewrite (validateToken_connected _ t c
                  (proj2 (initial_token ls route t) (conj Ht Hne)) Hc).
  - intros t Ht Hne Hno.
    by rewrite (validateToken_refused _ t resp
                  (proj2 (initial_token ls route t) (conj Ht Hne)) Hno).
  - intros Hnone.
    assert (AuthContext.githubToken (AuthContext.initial ls route) = None) as Ht.
    { unfold AuthContext.initial. cbn [AuthContext.githubToken].
      by destruct Hnone as [-> | ->]. }
    rewrite (validateToken_no_token _ _ Ht).
    unfold AuthContext.setLoading. rewrite Ht. done.
Qed.

(** X15. Reload after a login.  The token of a successful login, when it is
    not empty, is the token the provider starts with after a reload; a
    login that does not succeed changes nothing to what a reload finds. *)
Theorem login_survives_reload (st : AuthContext.State) (token route : string)
    (resp : Axios.outcome (option AuthContext.ConnectData)) :
  let st' := (AuthContext.login st token resp).1 in
  let result := (AuthContext.login st token resp).2 in
  (AuthContext.success result = true → token ≠ EmptyString →
     AuthContext.githubToken (AuthContext.initial (AuthContext.localStorage st') route)
     = Some token)
  ∧ (AuthContext.success result = false →
     AuthContext.initial (AuthContext.localStorage st') route
     = AuthContext.initial (AuthContext.localStorage st) route).
Proof.
  split.
  - intros (c & -> & Hc)%login_success_inv Hne.
    rewrite login_connected by done. apply initial_token.
    split; [apply lookup_insert_eq|done].
  - intros Hfail. destruct resp as [d|e]; [|done].
    unfold AuthContext.login in *. by destruct (AuthContext.connected d).
Qed.

(** X16. Logout undoes login in the storage: after a login, successful or
    not, a logout leaves [localStorage] as a logout without the login would;
    a second logout changes nothing; after a logout no user is authenticated
    and no token is to be had. *)
Theorem logout_undoes_login (st : AuthContext.State) (token : string)
    (resp : Axios.outcome (option AuthContext.ConnectData)) :
  AuthContext.localStorage
    (AuthContext.logout (AuthContext.login st token resp).1)
  = AuthContext.localStorage (AuthContext.logout st)
  ∧ AuthContext.logout (AuthContext.logout st) = AuthContext.logout st
  ∧ AuthContext.isAuthenticated (AuthContext.logout st) = false
  ∧ AuthContext.getToken (AuthContext.logout st) = None.
Proof.
  split; [|split; [|done]].
  - destruct resp as [d|e]; [|done]. unfold AuthContext.login.
    destruct (AuthContext.connected d); [|done]. simpl. apply delete_insert_eq.
  - unfold AuthContext.logout. simpl. f_equal. apply delete_delete_eq.
Qed.


(** ** The login page *)

Section Login.
Import Axios.

Lemma trimStart_blank s : JsString.blank s → JsString.trimStart s = EmptyString.
Proof.
  induction s as [|c s IH]; [done|]. intros [Hc Hs]. simpl. by rewrite Hc, IH.
Qed.

Lemma trimEnd_head c s :
  JsString.is_white_space c = false → JsString.trimEnd (String c s) ≠ EmptyString.
Proof. intros Hc. simpl. rewrite Hc. by destruct (JsString.trimEnd s). Qed.

Lemma trim_empty s : JsString.trim s = EmptyString ↔ JsString.blank s.
Proof.
  unfold JsString.trim. split.
  - induction s as [|c s IH]; [done|]. simpl.
    destruct (JsString.is_white_space c) eqn:Hc; [by split; [|apply IH]|].
    intros H. by destruct (trimEnd_head c s Hc).
  - intros H. by rewrite trimStart_blank.
Qed.

Lemma login_message_shown st token resp :
  AuthContext.success (AuthContext.login st token resp).2 = false →
  default EmptyString (AuthContext.message (AuthContext.login st token resp).2)
  ≠ EmptyString.
Proof.
  unfold AuthContext.login. destruct resp as [d|e]; simpl.
  - by destruct (AuthContext.connected d).
  - intros _. by apply or_else_truthy.
Qed.

Lemma handleLogin_submitted st auth resp :
  ¬ JsString.blank (LoginPage.token st) →
  LoginPage.handleLogin st auth resp
  = (let result := (AuthContext.login auth (LoginPage.token st) resp).2 in
     {| LoginPage.token := LoginPage.token st;
        LoginPage.isLoading := false;
        LoginPage.error :=
          if AuthContext.success result then EmptyString
          else default EmptyString (AuthContext.message result) |},
     (AuthContext.login auth (LoginPage.token st) resp).1).
Proof.
  intros Hnb. unfold LoginPage.handleLogin.
  destruct (Js.truthy (JsString.trim (LoginPage.token st))) eqn:Ht.
  - simpl. destruct (AuthContext.login _ _ _) as [auth' result]. simpl.
    by destruct (AuthContext.success result).
  - apply truthy_false, trim_empty in Ht. by destruct Hnb.
Qed.
End Login.

(** X18. A token made of white space only (or empty) is not submitted:
    [handleLogin] leaves the provider as it is, [login] is not called, and
    the page asks for a token. *)
Theorem handleLogin_blank_token (st : LoginPage.State) (auth : AuthContext.State)
    (resp : Axios.outcome (option AuthContext.ConnectData)) :
  JsString.blank (LoginPage.token st) →
  LoginPage.handleLogin st auth resp
  = ({| LoginPage.token := LoginPage.token st;
        LoginPage.isLoading := LoginPage.isLoading st;
        LoginPage.error := "GitHub token is required" |}, auth).
Proof.
  intros Hb%trim_empty. unfold LoginPage.handleLogin. by rewrite Hb.
Qed.

Lemma handleLogin_blank_token_witness :
  let st := LoginPage.setToken "   " LoginPage.initial in
  let auth := AuthContext.initial ∅ "/login" in
  let resp := Axios.Resolved (Some {| AuthContext.status := "connected";
                                      AuthContext.cd_username := "octocat" |}) in
  (LoginPage.handleLogin st auth resp).2 = auth
  ∧ LoginPage.error (LoginPage.handleLogin st auth resp).1
    = "GitHub token is required".
Proof.
  intros st auth resp.
  by rewrite (handleLogin_blank_token st auth resp).
Defined.

(** X19. A token that is not blank is submitted as typed, white space
    around it included: after [handleLogin] the loading flag is down, an error
    is shown exactly when the login did not succeed, and on success the token
    stored and kept in memory is the text of the input, untrimmed. *)
Theorem handleLogin_submits_as_typed (st : LoginPage.State)
    (auth : AuthContext.State)
    (resp : Axios.outcome (option AuthContext.ConnectData)) :
  ¬ JsString.blank (LoginPage.token st) →
  let st' := (LoginPage.handleLogin st auth resp).1 in
  let auth' := (LoginPage.handleLogin st auth resp).2 in
  let connected := ∃ c, resp = Axios.Resolved (Some c)
                        ∧ AuthContext.status c = "connected" in
  LoginPage.isLoading st' = false
  ∧ LoginPage.token st' = LoginPage.token st
  ∧ (LoginPage.error st' = EmptyString ↔ connected)
  ∧ (connected →
     AuthContext.githubToken auth' = Some (LoginPage.token st)
     ∧ AuthContext.localStorage auth' !! "github_token" = Some (LoginPage.token st)
     ∧ AuthContext.location auth' = "/")
  ∧ (¬ connected →
     AuthContext.localStorage auth' = AuthContext.localStorage auth
     ∧ AuthContext.githubToken auth' = AuthContext.githubToken auth
     ∧ AuthContext.user auth' = AuthContext.user auth).
Proof.
  intros Hnb. rewrite (handleLogin_submitted st auth resp Hnb). simpl.
  split; [done|]. split; [done|].
  destruct (AuthContext.success (AuthContext.login auth (LoginPage.token st) resp).2)
    eqn:Hs.
  - pose proof (login_success_inv _ _ _ Hs) as (c & -> & Hc).
    split; [by split; [exists c|]|].
    split; [|by intros []; exists c].
    intros _. rewrite login_connected by done. simpl.
    split; [done|]. split; [apply lookup_insert_eq|done].
  - assert (¬ ∃ c, resp = Axios.Resolved (Some c)
                   ∧ AuthContext.status c = "connected") as Hno.
    { intros (c & -> & Hc). by rewrite login_connected in Hs. }
    split; [|split; [done|]].
    + split; [|done]. intros H. by destruct (login_message_shown _ _ _ Hs).
    + intros _. destruct (login_refused auth (LoginPage.token st) resp) as [msg ->]; [|done].
      intros c -> Hc. apply Hno. by exists c.
Qed.

Lemma handleLogin_submits_as_typed_witness :
  let st := LoginPage.setToken " ghp_example " LoginPage.initial in
  let auth := AuthContext.initial ∅ "/login" in
  let resp := Axios.Resolved (Some {| AuthContext.status := "connected";
                                      AuthContext.cd_username := "octocat" |}) in
  AuthContext.localStorage (LoginPage.handleLogin st auth resp).2 !! "github_token"
  = Some " ghp_example ".
Proof.
  intros st auth resp.
  destruct (handleLogin_submits_as_typed st auth resp) as (_ & _ & _ & H & _).
  - simpl. intros [_ [[=] _]].
  - apply H. by eexists.
Defined.

(** ** The dashboard, path by path *)

(** X20. [fetchDashboardData] always ends with the loading flag down.  When
    the list of reports cannot be fetched nothing else changes; when it can,
    the dashboard shows its first five; without a user, or when the list of
    repositories cannot be fetched, the repositories and the statistics stay
    what they were, next to the new reports.  In all those cases the random
    generator is not used. *)
Theorem fetchDashboardData_partial {Report Repository : Type}
    (st : Dashboard.State Report Repository) (user : option AuthContext.User)
    (reportsResponse : Axios.outcome (list Report))
    (reposResponse : Axios.outcome (list Repository)) (g : Js.Rng) :
  let st' := (Dashboard.fetchDashboardData st user reportsResponse reposResponse g).1 in
  let g' := (Dashboard.fetchDashboardData st user reportsResponse reposResponse g).2 in
  Dashboard.isLoading st' = false
  ∧ (∀ e, reportsResponse = Axios.Rejected e →
       Dashboard.reports st' = Dashboard.reports st
       ∧ Dashboard.repositories st' = Dashboard.repositories st
       ∧ Dashboard.stats st' = Dashboard.stats st ∧ g' = g)
  ∧ (∀ reportsData, reportsResponse = Axios.Resolved reportsData →
       Dashboard.reports st' = take 5 reportsData
       ∧ (user = None ∨ (∃ e, reposResponse = Axios.Rejected e) →
          Dashboard.repositories st' = Dashboard.repositories st
          ∧ Dashboard.stats st' = Dashboard.stats st ∧ g' = g)).
Proof.
  unfold Dashboard.fetchDashboardData. split; [|split].
  - destruct reportsResponse as [reportsData|e]; [|done].
    destruct user; [|done]. destruct reposResponse as [reposData|e]; [|done].
    destruct (bool_decide _); simpl; done.
  - by intros e ->.
  - intros reportsData ->. split.
    + destruct user; [|done]. destruct reposResponse as [reposData|e]; [|done].
      destruct (bool_decide _); simpl; done.
    + intros [->|[e ->]]; [done|]. by destruct user.
Qed.

(** X21. With a user and both lists fetched, the dashboard shows the first
    five reports and the first five repositories, never more, while the two
    totals count every element fetched; the random generator is advanced by
    two draws when there is a report and by none when there is none. *)
Theorem fetchDashboardData_counts {Report Repository : Type}
    (st : Dashboard.State Report Repository) (u : AuthContext.User)
    (reportsData : list Report) (reposData : list Repository) (g : Js.Rng) :
  let out := Dashboard.fetchDashboardData st (Some u)
               (Axios.Resolved reportsData) (Axios.Resolved reposData) g in
  Dashboard.reports out.1 = take 5 reportsData
  ∧ Dashboard.repositories out.1 = take 5 reposData
  ∧ (length (Dashboard.reports out.1) ≤ 5)%nat
  ∧ (length (Dashboard.repositories out.1) ≤ 5)%nat
  ∧ Dashboard.totalReports (Dashboard.stats out.1) = Z.of_nat (length reportsData)
  ∧ Dashboard.totalRepositories (Dashboard.stats out.1) = Z.of_nat (length reposData)
  ∧ Js.draws out.2 = Js.draws g
  ∧ Js.pos out.2 = (Js.pos g + if reportsData is [] then 0 else 2)%nat.
Proof.
  unfold Dashboard.fetchDashboardData.
  destruct reportsData as [|r rs].
  - simpl. rewrite length_take. repeat split; try done; lia.
  - rewrite bool_decide_eq_true_2 by (simpl; lia). simpl.
    rewrite !length_take. repeat split; try done; lia.
Qed.

(** ** The settings page *)

Section Settings.
Import SettingsPage.

Lemma settings_run_cons st auth a acts :
  run st auth (a :: acts)
  = ((run (handle st auth a).1.1 (handle st auth a).1.2 acts).1,
     (handle st auth a).2 ++ (run (handle st auth a).1.1 (handle st auth a).1.2 acts).2).
Proof.
  cbn [run]. destruct (handle st auth a) as [[st' auth'] ts]. cbn [fst snd].
  by destruct (run st' auth' acts) as [[st'' auth''] ts'].
Qed.

Lemma handle_provider st auth a :
  a ≠ ClickConfirm → (handle st auth a).1.2 = auth.
Proof. destruct a; try done. intros _. simpl. by destruct (timeout st). Qed.

(** The spinner and the timers go together. *)
Lemma handle_timers st auth a :
  offered st a →
  (isUpdating st = true ↔ timers st ≠ []) ∧ (length (timers st) ≤ 1)%nat →
  let st' := (handle st auth a).1.1 in
  (isUpdating st' = true ↔ timers st' ≠ []) ∧ (length (timers st') ≤ 1)%nat.
Proof.
  intros Hoff [Hiff Hlen].
  assert (isUpdating st = false → timers st = []) as Hidle.
  { intros Hup. destruct (timers st) as [|t ts]; [done|].
    rewrite Hup in Hiff. assert (false = true) by (by apply Hiff). done. }
  destruct a; simpl in *; try (by split).
  - destruct Hoff as [Hup _]. rewrite (Hidle Hup). simpl. split; [by split|lia].
  - rewrite (Hidle Hoff). simpl. split; [by split|lia].
  - unfold timeout. destruct (timers st) as [|t [|t' ts]] eqn:Ht; simpl in *.
    + rewrite Ht. by split.
    + split; [by split|lia].
    + lia.
Qed.
End Settings.

(** X22. On the settings page the spinner of the two buttons is on exactly
    while a timer is running, and at most one timer runs at a time: in every
    session, the flag [isUpdating] is up if and only if a callback is
    pending. *)
Theorem settings_spinner (auth : AuthContext.State)
    (acts : list SettingsPage.action) :
  SettingsPage.offered_all SettingsPage.initial auth acts →
  let st := (SettingsPage.run SettingsPage.initial auth acts).1.1 in
  (SettingsPage.isUpdating st = true ↔ SettingsPage.timers st ≠ [])
  ∧ (length (SettingsPage.timers st) ≤ 1)%nat.
Proof.
  assert ((SettingsPage.isUpdating SettingsPage.initial = true
           ↔ SettingsPage.timers SettingsPage.initial ≠ [])
          ∧ (length (SettingsPage.timers SettingsPage.initial) ≤ 1)%nat) as H
    by (simpl; split; [done|lia]).
  revert H. generalize SettingsPage.initial. revert auth.
  induction acts as [|a acts IH]; intros auth st H Hoff; [done|].
  destruct Hoff as [Ha Hoff]. rewrite settings_run_cons. cbn [fst snd].
  apply IH; [|done]. by apply handle_timers.
Qed.

Lemma settings_spinner_witness :
  let auth := AuthContext.initial ∅ "/settings" in
  let acts := [SettingsPage.ClickSave; SettingsPage.Timeout;
               SettingsPage.ChangeGithubToken "ghp_new"; SettingsPage.ClickUpdate] in
  SettingsPage.isUpdating (SettingsPage.run SettingsPage.initial auth acts).1.1 = true
  ∧ length (SettingsPage.timers
              (SettingsPage.run SettingsPage.initial auth acts).1.1) = 1%nat.
Proof.
  intros auth acts.
  destruct (settings_spinner auth acts) as [[_ H] _].
  - by repeat split.
  - split; [by apply H|done].
Defined.

(** X23. The settings page changes the provider only through the confirmed
    disconnection: along any sequence of actions without it, the token typed
    and the update asked included, the provider (user, token in memory,
    [localStorage], route) is what it was. *)
Theorem settings_leave_provider (st : SettingsPage.State)
    (auth : AuthContext.State) (acts : list SettingsPage.action) :
  SettingsPage.ClickConfirm ∉ acts →
  (SettingsPage.run st auth acts).1.2 = auth.
Proof.
  revert st. induction acts as [|a acts IH]; intros st Hno; [done|].
  apply not_elem_of_cons in Hno as [Ha Hno].
  rewrite settings_run_cons. cbn [fst snd].
  rewrite (handle_provider st auth a) by done. by apply IH.
Qed.

Lemma settings_leave_provider_witness :
  let auth := (AuthContext.login (AuthContext.initial ∅ "/login") "ghp_old"
                 (Axios.Resolved (Some {| AuthContext.status := "connected";
                                          AuthContext.cd_username := "octocat" |}))).1 in
  let acts := [SettingsPage.ChangeGithubToken "ghp_new"; SettingsPage.ClickUpdate;
               SettingsPage.Timeout] in
  (SettingsPage.run SettingsPage.initial auth acts).2 = ["GitHub token updated"]
  ∧ AuthContext.githubToken (SettingsPage.run SettingsPage.initial auth acts).1.2
    = Some "ghp_old".
Proof.
  intros auth acts. split; [done|].
  rewrite (settings_leave_provider SettingsPage.initial auth acts); [done|].
  intros Hin. repeat (apply elem_of_cons in Hin as [?|Hin]; [done|]).
  by apply elem_of_nil in Hin.
Defined.

(** ** Navigation *)

Lemma sidebar_active_cases pathname :
  (∃ link, link ∈ Navigation.LinkItems ∧ Navigation.path link = pathname
           ∧ Navigation.active pathname = [link])
  ∨ ((pathname ∉ ["/"; "/analyze"; "/reports"; "/settings"])
     ∧ Navigation.active pathname = []).
Proof.
  destruct (decide (pathname = "/")) as [->|H1].
  { left. eexists. split; [apply list_elem_of_here|]. by split. }
  destruct (decide (pathname = "/analyze")) as [->|H2].
  { left. eexists. split; [apply list_elem_of_further, list_elem_of_here|].
    by split. }
  destruct (decide (pathname = "/reports")) as [->|H3].
  { left. eexists.
    split; [do 2 apply list_elem_of_further; apply list_elem_of_here|].
    by split. }
  destruct (decide (pathname = "/settings")) as [->|H4].
  { left. eexists.
    split; [do 3 apply list_elem_of_further; apply list_elem_of_here|].
    by split. }
  right. split.
  - intros Hin. repeat (apply elem_of_cons in Hin as [->|Hin]; [done|]).
    by apply elem_of_nil in Hin.
  - assert (∀ p, pathname ≠ p → String.eqb pathname p = false) as Hne
      by (intros p Hp; by apply String.eqb_neq).
    unfold Navigation.active, Navigation.LinkItems, Navigation.isActive.
    rewrite !filter_cons, filter_nil. simpl. by rewrite !Hne.
Qed.

(** X24. At any location the sidebar highlights at most one item, and it
    highlights one exactly when the location is, character for character, the
    path of an item. *)
Theorem sidebar_one_active (pathname : string) :
  (length (Navigation.active pathname) ≤ 1)%nat
  ∧ (Navigation.active pathname ≠ []
     ↔ pathname ∈ ["/"; "/analyze"; "/reports"; "/settings"])
  ∧ (∀ link, link ∈ Navigation.active pathname → Navigation.path link = pathname).
Proof.
  destruct (sidebar_active_cases pathname) as [(link & Hin & Hp & ->)|[Hno ->]].
  - split; [simpl; lia|]. split.
    + split; [|done]. intros _. subst pathname.
      repeat (apply elem_of_cons in Hin as [->|Hin];
              [by repeat first [apply list_elem_of_here|apply list_elem_of_further]|]).
      by apply elem_of_nil in Hin.
    + by intros l ->%list_elem_of_singleton.
  - split; [simpl; lia|]. split; [done|]. by intros l ?%elem_of_nil.
Qed.

(** X25. For a user set by [login] or by the validation at start-up the
    header shows the avatar [https://github.com/<username>.png], never the
    default one, and it shows the name [User] exactly when the username of
    the answer is empty. *)
Theorem header_shows_user (c : AuthContext.ConnectData) :
  let u := AuthContext.mkUser c in
  Navigation.header_avatar u
  = "https://github.com/" +:+ AuthContext.cd_username c +:+ ".png"
  ∧ (AuthContext.cd_username c ≠ EmptyString →
     Navigation.header_name u = AuthContext.cd_username c)
  ∧ (AuthContext.cd_username c = EmptyString → Navigation.header_name u = "User").
Proof.
  destruct c as [s [|a n]]; simpl; repeat split; try done.
Qed.
